(** * update-index.py: a shallow embedding and its verified properties

    The script scans the working directory for workflow-run directories
    ([scan_workflow_directories]), reads each run's JSON sidecar
    ([load_workflow_metadata], [calculate_duration]) and splices the
    collected records into [index.html] with regular-expression
    substitutions ([update_index_html]).

    Python values are modelled as follows.
    - [str] is a list of Unicode code points ([pystr]); comparison,
      search and replacement are the list operations Python performs.
    - an exception that leaves a function is the [Raise] case of [res].
    - [print] appends a line to an explicit log.
    - the file system is a tree of named entries ([node]); a file stands
      for what [json.load] makes of it: a value, a [JSONDecodeError] or
      another failure ([loaded]).
    - the text of [index.html] and the text [strftime] gives the clock are
      arguments of the renderer; the write fails on a text that cannot be
      encoded ([write_text]).
    - [total_seconds] is a binary64 float ([Datetime.int_total_seconds]),
      and [fromisoformat] is an argument of [calculate_duration_with]. *)

From Stdlib Require Import List NArith ZArith Bool Lia Ascii String.
From Stdlib Require Import Sorting.Sorted Sorting.Permutation.
Import ListNotations.

Set Implicit Arguments.

Abbreviation length := List.length (only parsing).

(** ** Strings *)

Module Str.

Definition pychar := N.
Definition pystr := list pychar.

(** An ASCII literal of the source as a code-point sequence. *)
Definition lit (s : string) : pystr :=
  List.map N_of_ascii (list_ascii_of_string s).
Arguments lit s%_string.

Fixpoint eqb (a b : pystr) : bool :=
  match a, b with
  | [], [] => true
  | x :: a', y :: b' => N.eqb x y && eqb a' b'
  | _, _ => false
  end.

(** [s.startswith(p)] *)
Fixpoint starts_with (p s : pystr) : bool :=
  match p, s with
  | [], _ => true
  | x :: p', y :: s' => N.eqb x y && starts_with p' s'
  | _ :: _, [] => false
  end.

(** The first occurrence of [pat] in [s]: the text before it and the text
    after it ([s.partition(pat)] without the separator), [None] when [pat]
    does not occur. *)
Fixpoint split_on (pat s : pystr) : option (pystr * pystr) :=
  if starts_with pat s then Some ([], skipn (length pat) s)
  else match s with
       | [] => None
       | c :: s' =>
           match split_on pat s' with
           | Some (a, b) => Some (c :: a, b)
           | None => None
           end
       end.

Definition contains (pat s : pystr) : bool :=
  match split_on pat s with Some _ => true | None => false end.

(** [s.replace(old, new)] for a non-empty [old]: the occurrences are taken
    from the left and do not overlap.  The fuel is the number of
    replacements still allowed; [replace] gives one more than the length of
    the string. *)
Fixpoint replace_fuel (fuel : nat) (old new s : pystr) : pystr :=
  match fuel with
  | O => s
  | S fuel' =>
      match split_on old s with
      | None => s
      | Some (a, b) => a ++ new ++ replace_fuel fuel' old new b
      end
  end.

(** [s.replace(old, new)]; with an empty [old] Python puts [new] before
    every character and at the end. *)
Definition replace (old new s : pystr) : pystr :=
  match old with
  | [] => new ++ flat_map (fun c => c :: new) s
  | _ :: _ => replace_fuel (S (length s)) old new s
  end.

(** [str.isspace] on one character: the code points Python's [strip()]
    removes. *)
Definition is_space (c : pychar) : bool :=
  ((9 <=? c) && (c <=? 13) || (28 <=? c) && (c <=? 32)
   || (c =? 133) || (c =? 160) || (c =? 5760)
   || (8192 <=? c) && (c <=? 8202)
   || (c =? 8232) || (c =? 8233) || (c =? 8239) || (c =? 8287)
   || (c =? 12288))%N.

Fixpoint lstrip (s : pystr) : pystr :=
  match s with
  | c :: s' => if is_space c then lstrip s' else s
  | [] => []
  end.

(** [s.strip()] *)
Definition strip (s : pystr) : pystr := rev (lstrip (rev (lstrip s))).

(** [sep.join(parts)] *)
Fixpoint join (sep : pystr) (parts : list pystr) : pystr :=
  match parts with
  | [] => []
  | [p] => p
  | p :: rest => p ++ sep ++ join sep rest
  end.

(** Comparison of two [str] values: lexicographic on code points, a proper
    prefix being smaller. *)
Fixpoint leb (a b : pystr) : bool :=
  match a, b with
  | [], _ => true
  | _ :: _, [] => false
  | x :: a', y :: b' => N.ltb x y || (N.eqb x y && leb a' b')
  end.

Definition is_ascii_digit (c : pychar) : bool := ((48 <=? c) && (c <=? 57))%N.

(** [str(n)] for a natural number. *)
Definition digit_char (d : nat) : pychar := (48 + N.of_nat d)%N.

Fixpoint of_nat_fuel (fuel n : nat) (acc : pystr) : pystr :=
  match fuel with
  | O => acc
  | S fuel' =>
      let acc' := digit_char (n mod 10) :: acc in
      if Nat.ltb n 10 then acc' else of_nat_fuel fuel' (n / 10) acc'
  end.

Definition of_nat (n : nat) : pystr := of_nat_fuel (S n) n [].

(** The value of a run of ASCII digits, [None] if another character
    occurs. *)
Fixpoint digits_val (acc : Z) (s : pystr) : option Z :=
  match s with
  | [] => Some acc
  | c :: s' =>
      if is_ascii_digit c then digits_val (acc * 10 + (Z.of_N c - 48))%Z s'
      else None
  end.

(** The text after the character [c], when [s] starts with it. *)
Definition expect (c : pychar) (s : pystr) : option pystr :=
  match s with
  | x :: s' => if N.eqb x c then Some s' else None
  | [] => None
  end.

Definition colon : pychar := 58%N.
Definition dash : pychar := 45%N.
Definition plus : pychar := 43%N.
Definition dot : pychar := 46%N.

End Str.

Import Str.

(** ** Exceptions and the console *)

(** The exceptions the script can let escape. *)
Inductive exn : Type :=
| AttributeError   (* a method looked up on a value that lacks it *)
| TypeError
| IsADirectoryError
| ReError          (* [re.error], and the [IndexError] of a bad template *)
| UnicodeDecodeError  (* bytes read from a file that are not UTF-8 *)
| RecursionError      (* JSON text nested deeper than the interpreter allows *)
| ValueError          (* a JSON integer beyond the digit limit of [int] *)
| OSError             (* a file that cannot be opened or read *)
| UnicodeEncodeError. (* a text with a surrogate code point given to [write] *)

Inductive res (A : Type) : Type :=
| Ok (a : A)
| Raise (e : exn).
Arguments Ok {A} a.
Arguments Raise {A} e.

Definition bind {A B} (m : res A) (k : A -> res B) : res B :=
  match m with
  | Ok a => k a
  | Raise e => Raise e
  end.

Notation "x <- m ;; k" := (bind m (fun x => k))
  (at level 61, m at next level, right associativity).

(** ** Timestamps ([datetime.fromisoformat] and subtraction) *)

Module Datetime.

Local Open Scope Z_scope.

(** A parsed [datetime]: the wall-clock time in microseconds since
    0001-01-01T00:00:00, and the UTC offset in microseconds of an aware
    value ([None] for a naive one). *)
Record datetime : Type := mk_datetime {
  wall : Z;
  utcoffset : option Z
}.

Definition is_leap (y : Z) : bool :=
  (y mod 4 =? 0) && (negb (y mod 100 =? 0) || (y mod 400 =? 0)).

Definition days_in_month (y m : Z) : Z :=
  if m =? 2 then (if is_leap y then 29 else 28)
  else if (m =? 4) || (m =? 6) || (m =? 9) || (m =? 11) then 30 else 31.

Definition days_before_year (y : Z) : Z :=
  let p := y - 1 in p * 365 + p / 4 - p / 100 + p / 400.

Fixpoint days_before_month (y : Z) (m : nat) : Z :=
  match m with
  | O => 0
  | S m' => days_before_month y m' + days_in_month y (Z.of_nat m)
  end.

(** [n] digits at the head of [s]: their value and the rest. *)
Definition take_digits (n : nat) (s : pystr) : option (Z * pystr) :=
  if Nat.eqb (length (firstn n s)) n then
    match digits_val 0 (firstn n s) with
    | Some v => Some (v, skipn n s)
    | None => None
    end
  else None.

Local Notation "'let?' x := m 'in' k" :=
  (match m with Some x => k | None => None end)
  (at level 10, x pattern, m at level 100, k at level 200).

(** The fraction after the decimal point: three or six digits, in
    microseconds. *)
Definition parse_fraction (f : pystr) : option Z :=
  if Nat.eqb (length f) 3 then
    let? v := digits_val 0 f in Some (v * 1000)
  else if Nat.eqb (length f) 6 then digits_val 0 f
  else None.

(** [HH[:MM[:SS[.fff[fff]]]]], the whole of [s]: the number of fields
    read, then hour, minute, second and microsecond. *)
Definition parse_hms (s : pystr) : option (nat * Z * Z * Z * Z) :=
  let? (h, r1) := take_digits 2 s in
  match r1 with
  | [] => Some (1%nat, h, 0, 0, 0)
  | _ =>
      let? r1' := expect colon r1 in
      let? (m, r2) := take_digits 2 r1' in
      match r2 with
      | [] => Some (2%nat, h, m, 0, 0)
      | _ =>
          let? r2' := expect colon r2 in
          let? (sec, r3) := take_digits 2 r2' in
          match r3 with
          | [] => Some (3%nat, h, m, sec, 0)
          | _ =>
              let? f := expect dot r3 in
              let? us := parse_fraction f in
              Some (4%nat, h, m, sec, us)
          end
      end
  end.

(** The time text cut at its first sign character: the time, and the sign
    and text of the offset when there is one. *)
Fixpoint cut_offset (s : pystr) : pystr * option (Z * pystr) :=
  match s with
  | [] => ([], None)
  | c :: s' =>
      if N.eqb c plus then ([], Some (1, s'))
      else if N.eqb c dash then ([], Some (-1, s'))
      else let (t, o) := cut_offset s' in (c :: t, o)
  end.

Definition day_us : Z := 86400 * 1000000.

(** [+HH:MM[:SS[.ffffff]]] after its sign, in microseconds; the offset of
    a [timezone] lies strictly between -24 h and 24 h. *)
Definition parse_offset (sign : Z) (s : pystr) : option Z :=
  let? (n, h, m, sec, us) := parse_hms s in
  if Nat.leb 2 n then
    let off := sign * ((h * 3600 + m * 60 + sec) * 1000000 + us) in
    if (- day_us <? off) && (off <? day_us) then Some off else None
  else None.

(** [datetime.fromisoformat] for the form
    [YYYY-MM-DD[*HH[:MM[:SS[.fff[fff]]]][+HH:MM[:SS[.ffffff]]]]], which
    every interpreter from 3.7 on reads this way; [None] is its
    [ValueError].  Interpreters from 3.11 on read further forms (a date
    and time without separators, fractions of other lengths, an offset of
    hours only): [calculate_duration_with] below takes the parser as an
    argument, and this one is the parser of [calculate_duration]. *)
Definition fromisoformat (s : pystr) : option datetime :=
  let? (y, r1) := take_digits 4 s in
  let? r1' := expect dash r1 in
  let? (mo, r2) := take_digits 2 r1' in
  let? r2' := expect dash r2 in
  let? (d, r3) := take_digits 2 r2' in
  if (1 <=? y) && (1 <=? mo) && (mo <=? 12)
     && (1 <=? d) && (d <=? days_in_month y mo) then
    let days := days_before_year y + days_before_month y (Z.to_nat (mo - 1)) + d in
    match r3 with
    | [] => Some (mk_datetime (days * day_us) None)
    | _ :: t =>
        let (tm, off) := cut_offset t in
        let? (_, h, m, sec, us) := parse_hms tm in
        if (h <? 24) && (m <? 60) && (sec <? 60) then
          let w := days * day_us + (h * 3600 + m * 60 + sec) * 1000000 + us in
          match off with
          | None => Some (mk_datetime w None)
          | Some (sign, o) =>
              let? ofs := parse_offset sign o in
              Some (mk_datetime w (Some ofs))
          end
        else None
    end
  else None.

(** [end - start] in microseconds; subtracting a naive value from an aware
    one, or the reverse, is a [TypeError]. *)
Definition sub (e s : datetime) : option Z :=
  match utcoffset e, utcoffset s with
  | None, None => Some (wall e - wall s)
  | Some oe, Some os => Some ((wall e - oe) - (wall s - os))
  | _, _ => None
  end.

(** [a / b] rounded to the nearest integer, a tie going to the even one
    ([0 <= a], [0 < b]). *)
Definition round_half_even (a b : Z) : Z :=
  let q := a / b in
  let r := a mod b in
  if 2 * r <? b then q
  else if b <? 2 * r then q + 1
  else if Z.even q then q else q + 1.

(** [int(duration.total_seconds())].  [total_seconds] is the true division
    of the microseconds by [10**6]: the quotient correctly rounded to a
    binary64 float, that is to 53 significant bits, [e] being the binary
    exponent of the quotient; [int] then truncates the float towards zero.
    A quotient below 1 rounds to a float below 1. *)
Definition int_total_seconds (us : Z) : Z :=
  let a := Z.abs us in
  let mag :=
    if a <? 1000000 then 0
    else
      let e := Z.log2 (a / 1000000) in
      if e <=? 52 then
        round_half_even (a * 2 ^ (52 - e)) 1000000 / 2 ^ (52 - e)
      else
        round_half_even a (1000000 * 2 ^ (e - 52)) * 2 ^ (e - 52) in
  Z.sgn us * mag.

End Datetime.

(** ** JSON values, as [json.load] returns them *)

(** A [dict] is the list of its items, the keys pairwise distinct. *)
#[local] Unset Elimination Schemes.
Inductive json : Type :=
| JNull
| JBool (b : bool)
| JInt (z : Z)
| JFloat (num : Z) (den : positive)
| JStr (s : pystr)
| JList (l : list json)
| JDict (d : list (pystr * json)).
#[local] Set Elimination Schemes.

(** The empty string, [None], zero and the empty containers are false. *)
Definition truthy (v : json) : bool :=
  match v with
  | JNull => false
  | JBool b => b
  | JInt z => negb (Z.eqb z 0)
  | JFloat n _ => negb (Z.eqb n 0)
  | JStr s => negb (eqb s [])
  | JList l => match l with [] => false | _ => true end
  | JDict d => match d with [] => false | _ => true end
  end.

Fixpoint lookup (k : pystr) (d : list (pystr * json)) : option json :=
  match d with
  | [] => None
  | (k', v) :: d' => if eqb k k' then Some v else lookup k d'
  end.

(** [v.get(key, default)]: only a [dict] has the method. *)
Definition get (v : json) (key : pystr) (default : json) : res json :=
  match v with
  | JDict d => Ok (match lookup key d with Some x => x | None => default end)
  | _ => Raise AttributeError
  end.

(** [v.strip()]: only a [str] has the method. *)
Definition strip_value (v : json) : res pystr :=
  match v with
  | JStr s => Ok (strip s)
  | _ => Raise AttributeError
  end.

(** [v != 'Unknown'] *)
Definition is_unknown (v : json) : bool :=
  match v with
  | JStr s => eqb s (lit "Unknown")
  | _ => false
  end.

(** ** calculate_duration *)

(** [f"{n:02d}"]: at least two characters, the sign counted. *)
Definition fmt_02d (n : Z) : pystr :=
  if (n <? 0)%Z then lit "-" ++ of_nat (Z.to_nat (- n))
  else if (n <? 10)%Z then lit "0" ++ of_nat (Z.to_nat n)
  else of_nat (Z.to_nat n).

Definition format_hms (total_seconds : Z) : pystr :=
  let hours := (total_seconds / 3600)%Z in
  let minutes := ((total_seconds mod 3600) / 60)%Z in
  let seconds := (total_seconds mod 60)%Z in
  fmt_02d hours ++ lit ":" ++ fmt_02d minutes ++ lit ":" ++ fmt_02d seconds.

(** The body of the [try], for the interpreter's [fromisoformat]: [None]
    is any exception, which the [except] clause turns into the result
    [None]. *)
Definition calculate_duration_with
  (fromisoformat : pystr -> option Datetime.datetime)
  (started_at completed_at : pystr) : option pystr :=
  if eqb started_at [] || eqb completed_at [] then None
  else
    match fromisoformat (replace (lit "Z") (lit "+00:00") started_at),
          fromisoformat (replace (lit "Z") (lit "+00:00") completed_at)
    with
    | Some start, Some end_ =>
        match Datetime.sub end_ start with
        | Some duration =>
            Some (format_hms (Datetime.int_total_seconds duration))
        | None => None
        end
    | _, _ => None
    end.

Definition calculate_duration : pystr -> pystr -> option pystr :=
  calculate_duration_with Datetime.fromisoformat.

(** ** The file system *)

(** The ways [open] and [json.load] fail on a file other than with a
    [JSONDecodeError]. *)
Inductive load_failure : Type :=
| NotUtf8          (* the bytes do not decode *)
| NestedTooDeep    (* the decoder exhausts the recursion limit *)
| IntegerTooLong   (* an integer literal beyond the digit limit *)
| Unreadable.      (* the file cannot be opened or read *)

Definition failure_exn (f : load_failure) : exn :=
  match f with
  | NotUtf8 => UnicodeDecodeError
  | NestedTooDeep => RecursionError
  | IntegerTooLong => ValueError
  | Unreadable => OSError
  end.

(** What [json.load] makes of a file: the value, the message of its
    [JSONDecodeError], or another failure. *)
Inductive loaded : Type :=
| Loads (data : json)
| DecodeError (msg : pystr)
| LoadFails (f : load_failure).

#[local] Unset Elimination Schemes.
Inductive node : Type :=
| File (content : loaded)
| Dir (entries : list (pystr * node)).
#[local] Set Elimination Schemes.

Definition entries := list (pystr * node).

Definition is_dir (n : node) : bool :=
  match n with Dir _ => true | File _ => false end.

(** The entry of a directory with the given name ([(dir / name)]). *)
Fixpoint child (name : pystr) (es : entries) : option node :=
  match es with
  | [] => None
  | (n, x) :: es' => if eqb n name then Some x else child name es'
  end.

Definition exists_in (name : pystr) (es : entries) : bool :=
  match child name es with Some _ => true | None => false end.

(** ** load_workflow_metadata *)

Record metadata : Type := mk_metadata {
  m_actor : json;
  m_release_version : json;
  m_started_at : json;
  m_duration_formatted : json
}.

Definition no_metadata : metadata := mk_metadata JNull JNull JNull JNull.

Definition of_option (o : option pystr) : json :=
  match o with Some s => JStr s | None => JNull end.

(** The statements between [json.load] and [return] (lines 50-74). *)
Definition extract_metadata (data : json) : res metadata :=
  wf <- get data (lit "workflow") (JDict []) ;;
  actor <- get wf (lit "actor") (JStr (lit "Unknown")) ;;
  inputs <- get data (lit "inputs") (JDict []) ;;
  release_version <- get inputs (lit "release-version") (JStr (lit "Unknown")) ;;
  execution <- get data (lit "execution") (JDict []) ;;
  sa <- get execution (lit "started_at") (JStr []) ;;
  started_at <- strip_value sa ;;
  duration0 <- get execution (lit "duration_formatted") JNull ;;
  duration1 <-
    (if negb (truthy duration0) then
       ca <- get execution (lit "completed_at") (JStr []) ;;
       completed_at <- strip_value ca ;;
       if negb (eqb started_at []) && negb (eqb completed_at [])
       then Ok (of_option (calculate_duration started_at completed_at))
       else Ok duration0
     else Ok duration0) ;;
  let started_at' := if eqb started_at [] then JNull else JStr started_at in
  let duration2 := if negb (truthy duration1) then JNull else duration1 in
  Ok (mk_metadata
        (if negb (is_unknown actor) then actor else JNull)
        (if negb (is_unknown release_version) then release_version else JNull)
        started_at' duration2).

Definition metadata_file_name : pystr := lit "workflow-metadata.json".

Definition parse_warning (dir_name msg : pystr) : pystr :=
  lit "Warning: Could not parse metadata for " ++ dir_name ++ lit ": " ++ msg.

(** The lines printed, then the result.  [open] on a directory raises;
    the [except] clause catches the decode error only ([KeyError] is never
    raised by [get]), so every other failure of [open] and [json.load]
    leaves the function. *)
Definition load_workflow_metadata (dir_name : pystr) (dir : entries)
  : list pystr * res metadata :=
  match child metadata_file_name dir with
  | None => ([], Ok no_metadata)
  | Some (Dir _) => ([], Raise IsADirectoryError)
  | Some (File (DecodeError msg)) =>
      ([parse_warning dir_name msg], Ok no_metadata)
  | Some (File (LoadFails f)) => ([], Raise (failure_exn f))
  | Some (File (Loads data)) => ([], extract_metadata data)
  end.

(** ** scan_workflow_directories *)

(** What the script takes from the Python library without defining it:
    the decimal digits beyond ASCII that the class [\d] of a [str] pattern
    accepts (Unicode category Nd), and the text [str()] gives a float, a
    list or a dict. *)
Class PyLib : Type := {
  unicode_decimal : pychar -> bool;
  repr_value : json -> pystr
}.

Section Scan.

Context {L : PyLib}.

(** The class [\d]. *)
Definition is_decimal (c : pychar) : bool :=
  if (c <? 128)%N then is_ascii_digit c else unicode_decimal c.

(** [\d{n}] at the head of [s]: the digits and the rest. *)
Definition take_decimals (n : nat) (s : pystr) : option (pystr * pystr) :=
  let d := firstn n s in
  if Nat.eqb (length d) n && forallb is_decimal d then Some (d, skipn n s)
  else None.

(** The longest run of digits at the head of [s] (a greedy [\d*]). *)
Fixpoint span_decimals (s : pystr) : pystr * pystr :=
  match s with
  | c :: s' =>
      if is_decimal c then let (d, r) := span_decimals s' in (c :: d, r)
      else ([], s)
  | [] => ([], [])
  end.

(** [re.match(r'(\d{4})-(\d{2})-(\d{2})-(\d+)', name)]: the four groups;
    what follows the last digit of the run id is not looked at. *)
Definition match_name (name : pystr)
  : option (pystr * pystr * pystr * pystr) :=
  match take_decimals 4 name with
  | Some (year, r1) =>
    match expect dash r1 with
    | Some r1' =>
      match take_decimals 2 r1' with
      | Some (month, r2) =>
        match expect dash r2 with
        | Some r2' =>
          match take_decimals 2 r2' with
          | Some (day, r3) =>
            match expect dash r3 with
            | Some r3' =>
              match span_decimals r3' with
              | ([], _) => None
              | (run_id, _) => Some (year, month, day, run_id)
              end
            | None => None
            end
          | None => None
          end
        | None => None
        end
      | None => None
      end
    | None => None
    end
  | None => None
  end.

Record workflow : Type := mk_workflow {
  name : pystr;
  year : pystr;
  month : pystr;
  day : pystr;
  run_id : pystr;
  has_index : bool;
  job_count : nat;
  actor : json;
  release_version : json;
  started_at : json;
  duration_formatted : json
}.

Definition reserved (n : pystr) : bool :=
  eqb n (lit "__pycache__") || eqb n (lit ".git").

(** [len([d for d in dir_path.iterdir() if d.is_dir()])] *)
Definition count_dirs (es : entries) : nat :=
  length (filter (fun e => is_dir (snd e)) es).

(** [sorted(..., reverse=True)] on the paths of one directory, which
    compare as their names do: descending, entries that compare equal
    staying in their order. *)
Fixpoint insert_desc (x : pystr * node) (l : entries) : entries :=
  match l with
  | [] => [x]
  | y :: l' =>
      if leb (fst y) (fst x) then x :: y :: l' else y :: insert_desc x l'
  end.

Definition sorted_desc (es : entries) : entries :=
  fold_right insert_desc [] es.

(** The body of the [for] loop on the sorted entries: the lines printed
    and the list built; an exception of the loader ends the scan. *)
Fixpoint scan_loop (es : entries) : list pystr * res (list workflow) :=
  match es with
  | [] => ([], Ok [])
  | (n, Dir children) :: rest =>
      if negb (reserved n) then
        match match_name n with
        | Some (y, m, d, r) =>
            let has := exists_in (lit "index.html") children in
            let jobs := count_dirs children in
            match load_workflow_metadata n children with
            | (log, Raise e) => (log, Raise e)
            | (log, Ok md) =>
                let w := mk_workflow n y m d r has jobs
                           (m_actor md) (m_release_version md)
                           (m_started_at md) (m_duration_formatted md) in
                let (log', ws) := scan_loop rest in
                (log ++ log', ws' <- ws ;; Ok (w :: ws'))
            end
        | None => scan_loop rest
        end
      else scan_loop rest
  | (_, File _) :: rest => scan_loop rest
  end.

(** [base] is the content of the working directory, in the order
    [iterdir] yields it. *)
Definition scan_workflow_directories (base : entries)
  : list pystr * res (list workflow) :=
  scan_loop (sorted_desc base).

End Scan.

(** The library instance of the examples, whose texts are ASCII and whose
    records hold strings: no digit beyond ASCII, and an empty text for the
    values [str()] is not modelled on. *)
Definition ascii_lib : PyLib :=
  {| unicode_decimal := fun _ => false; repr_value := fun _ => [] |}.

(** ** Regular-expression substitution ([re.sub]) *)

Module Re.

Definition backslash : pychar := 92%N.

Definition is_octal (c : pychar) : bool := ((48 <=? c) && (c <=? 55))%N.

Definition is_ascii_letter (c : pychar) : bool :=
  ((65 <=? c) && (c <=? 90) || (97 <=? c) && (c <=? 122))%N.

Definition digit (c : pychar) : N := (c - 48)%N.

(** The escapes of a replacement template that stand for one character:
    [\a \b \f \n \r \t \v] and the doubled backslash. *)
Definition simple_escape (c : pychar) : option pychar :=
  if (c =? 97)%N then Some 7%N
  else if (c =? 98)%N then Some 8%N
  else if (c =? 102)%N then Some 12%N
  else if (c =? 110)%N then Some 10%N
  else if (c =? 114)%N then Some 13%N
  else if (c =? 116)%N then Some 9%N
  else if (c =? 118)%N then Some 11%N
  else if (c =? 92)%N then Some 92%N
  else None.

(** The expansion of a replacement template for one match, [groups]
    holding the whole match and then its groups.  After a backslash:
    [g<n>] and one or two digits refer to a group, which must exist;
    [0] and three octal digits give a character; a letter that is not an
    escape, and a backslash at the end, are errors; any other character
    stays with its backslash.  [fuel] bounds the characters read. *)
Fixpoint expand_fuel (fuel : nat) (groups : list pystr) (t : pystr)
  : res pystr :=
  match fuel with
  | O => Ok []
  | S f =>
      let continue (out rest : pystr) : res pystr :=
        r <- expand_fuel f groups rest ;; Ok (out ++ r) in
      let group (i : N) (rest : pystr) : res pystr :=
        match nth_error groups (N.to_nat i) with
        | Some g => continue g rest
        | None => Raise ReError
        end in
      match t with
      | [] => Ok []
      | c :: t1 =>
          if negb (c =? backslash)%N then continue [c] t1
          else
            match t1 with
            | [] => Raise ReError
            | e :: t2 =>
                if (e =? 103)%N then
                  match t2 with
                  | 60%N :: t3 =>
                      match split_on [62%N] t3 with
                      | Some (d :: nm, t4) =>
                          if forallb is_ascii_digit (d :: nm) then
                            match digits_val 0 (d :: nm) with
                            | Some v => group (Z.to_N v) t4
                            | None => Raise ReError
                            end
                          else Raise ReError
                      | _ => Raise ReError
                      end
                  | _ => Raise ReError
                  end
                else if (e =? 48)%N then
                  match t2 with
                  | o1 :: t3 =>
                      if is_octal o1 then
                        match t3 with
                        | o2 :: t4 =>
                            if is_octal o2
                            then continue [N.land (8 * digit o1 + digit o2) 255] t4
                            else continue [digit o1] t3
                        | [] => continue [digit o1] t3
                        end
                      else continue [0%N] t2
                  | [] => continue [0%N] t2
                  end
                else if is_ascii_digit e then
                  match t2 with
                  | d :: t3 =>
                      if is_ascii_digit d then
                        match t3 with
                        | o :: t4 =>
                            if is_octal e && is_octal d && is_octal o then
                              let v := (64 * digit e + 8 * digit d + digit o)%N in
                              if (255 <? v)%N then Raise ReError
                              else continue [v] t4
                            else group (10 * digit e + digit d)%N t3
                        | [] => group (10 * digit e + digit d)%N t3
                        end
                      else group (digit e) t2
                  | [] => group (digit e) t2
                  end
                else
                  match simple_escape e with
                  | Some x => continue [x] t2
                  | None =>
                      if is_ascii_letter e then Raise ReError
                      else continue [c; e] t2
                  end
            end
      end
  end.

Definition expand (groups : list pystr) (t : pystr) : res pystr :=
  expand_fuel (S (length t)) groups t.

(** The groups of an empty match, to parse a template with. *)
Definition no_groups : list pystr := [[]; []; []; []].

(** [re.sub] for a pattern [(P)(.*?)(Q)] with the flag [DOTALL], [P] and
    [Q] being literal texts.  The leftmost match starts at the first
    occurrence of [P] and its lazy middle group ends at the first [Q]
    after it; when no [Q] follows the first [P], none follows a later one
    either and nothing matches.  The search resumes after each match. *)
Fixpoint sub_lazy_fuel (fuel : nat) (P Q tmpl content : pystr)
  : res pystr :=
  match fuel with
  | O => Ok content
  | S f =>
      match split_on P content with
      | None => Ok content
      | Some (pre, rest) =>
          match split_on Q rest with
          | None => Ok content
          | Some (body, post) =>
              r <- expand [P ++ body ++ Q; P; body; Q] tmpl ;;
              tl <- sub_lazy_fuel f P Q tmpl post ;;
              Ok (pre ++ r ++ tl)
          end
      end
  end.

(** The template is parsed before the search, so that its errors are
    raised whether or not the pattern matches. *)
Definition sub_lazy (P Q tmpl content : pystr) : res pystr :=
  _ <- expand no_groups tmpl ;;
  sub_lazy_fuel (S (length content)) P Q tmpl content.

(** [re.search] for the same pattern. *)
Definition search_lazy (P Q content : pystr) : bool :=
  match split_on P content with
  | Some (_, rest) => contains Q rest
  | None => false
  end.

(** The leftmost match of a pattern [(A.*?B)(.*?)(C.*?D)] with [DOTALL],
    four literal texts: each text is found at its first occurrence after
    the one before it.  The text before the match, the three groups and
    the text after it. *)
Definition find4 (A B C D content : pystr)
  : option (pystr * pystr * pystr * pystr * pystr) :=
  match split_on A content with
  | Some (pre, r1) =>
    match split_on B r1 with
    | Some (x, r2) =>
      match split_on C r2 with
      | Some (y, r3) =>
        match split_on D r3 with
        | Some (z, post) => Some (pre, A ++ x ++ B, y, C ++ z ++ D, post)
        | None => None
        end
      | None => None
      end
    | None => None
    end
  | None => None
  end.

Fixpoint sub4_fuel (fuel : nat) (A B C D tmpl content : pystr)
  : res pystr :=
  match fuel with
  | O => Ok content
  | S f =>
      match find4 A B C D content with
      | None => Ok content
      | Some (pre, g1, g2, g3, post) =>
          r <- expand [g1 ++ g2 ++ g3; g1; g2; g3] tmpl ;;
          tl <- sub4_fuel f A B C D tmpl post ;;
          Ok (pre ++ r ++ tl)
      end
  end.

Definition sub4 (A B C D tmpl content : pystr) : res pystr :=
  _ <- expand no_groups tmpl ;;
  sub4_fuel (S (length content)) A B C D tmpl content.

End Re.

(** ** update_index_html *)

Section Render.

Context {L : PyLib}.

(** [str(v)], as an f-string inserts it. *)
Definition py_str (v : json) : pystr :=
  match v with
  | JNull => lit "None"
  | JBool true => lit "True"
  | JBool false => lit "False"
  | JInt z => if (z <? 0)%Z then lit "-" ++ of_nat (Z.to_nat (- z))
              else of_nat (Z.to_nat z)
  | JStr s => s
  | _ => repr_value v
  end.

(** One optional field of an entry: quoted when the value is true, the
    literal [null] otherwise. *)
Definition js_field (key : pystr) (v : json) : pystr :=
  if truthy v then lit ", " ++ key ++ lit ": '" ++ py_str v ++ lit "'"
  else lit ", " ++ key ++ lit ": null".

(** [metadata_js] (lines 140-165). *)
Definition js_entry (w : workflow) : pystr :=
  lit "{" ++ lit "name: '" ++ name w ++ lit "'"
  ++ lit ", hasIndex: " ++ (if has_index w then lit "true" else lit "false")
  ++ lit ", jobCount: " ++ of_nat (job_count w)
  ++ js_field (lit "actor") (actor w)
  ++ js_field (lit "releaseVersion") (release_version w)
  ++ js_field (lit "startedAt") (started_at w)
  ++ js_field (lit "duration") (duration_formatted w)
  ++ lit "}".

Definition newline : pychar := 10%N.
Definition spaces (n : nat) : pystr := repeat 32%N n.

Definition workflows_js (ws : list workflow) : pystr :=
  join (lit "," ++ [newline] ++ spaces 16) (List.map js_entry ws).

Definition old_decl : pystr := lit "const workflowDirectories = [".
Definition new_decl : pystr := lit "const workflowData = [".
Definition array_end : pystr := lit "];".

(** The text put between the brackets of the array. *)
Definition array_body (ws : list workflow) : pystr :=
  [newline] ++ spaces 16 ++ workflows_js ws ++ [newline] ++ spaces 12.

(** [replacement] (line 175): group 1, the body, group 3. *)
Definition array_replacement (ws : list workflow) : pystr :=
  lit "\1" ++ array_body ws ++ lit "\3".

Definition array_warning : pystr :=
  lit "Warning: Could not find workflow data array to update".

(** Lines 177-185: the lines printed and [updated_content]. *)
Definition splice_array (ws : list workflow) (content : pystr)
  : list pystr * res pystr :=
  if Re.search_lazy old_decl array_end content then
    ([], c <- Re.sub_lazy old_decl array_end (array_replacement ws) content ;;
         Ok (replace old_decl new_decl c))
  else if Re.search_lazy new_decl array_end content then
    ([], Re.sub_lazy new_decl array_end (array_replacement ws) content)
  else ([array_warning], Ok content).

(** [index_list_js] (lines 188-189). *)
Definition index_list_js (ws : list workflow) : pystr :=
  join (lit ", ")
    (List.map (fun w => lit "'" ++ name w ++ lit "'")
       (filter has_index ws)).

Definition check_open : pystr := lit "function checkForIndex(workflowName) {".

Definition check_for_index_replacement (ws : list workflow) : pystr :=
  lit "\1[" ++ index_list_js ws ++ lit "].includes(workflowName)\3".

(** Line 195. *)
Definition splice_check (ws : list workflow) (content : pystr) : res pystr :=
  Re.sub4 check_open (lit "return ") (lit ";") (lit "}")
    (check_for_index_replacement ws) content.

Fixpoint strip_prefix (p s : pystr) : option pystr :=
  match p, s with
  | [], _ => Some s
  | x :: p', y :: s' => if N.eqb x y then strip_prefix p' s' else None
  | _ :: _, [] => None
  end.

Definition stamp_head : pystr := lit "Last updated: ".
Definition stamp_tail : pystr := lit " | Auto-generated from directory scan".

(** [\d{n}] and then the literal [sep], at the head of [s]. *)
Definition decimals_then (n : nat) (sep s : pystr) : option pystr :=
  match take_decimals n s with
  | Some (_, r) => strip_prefix sep r
  | None => None
  end.

(** The timestamp pattern of line 199 at the head of [s]: what follows
    the match. *)
Definition stamp_match (s : pystr) : option pystr :=
  match strip_prefix stamp_head s with
  | Some r0 =>
    match decimals_then 4 (lit "-") r0 with
    | Some r1 =>
      match decimals_then 2 (lit "-") r1 with
      | Some r2 =>
        match decimals_then 2 (lit " ") r2 with
        | Some r3 =>
          match decimals_then 2 (lit ":") r3 with
          | Some r4 =>
            match decimals_then 2 (lit ":") r4 with
            | Some r5 => decimals_then 2 stamp_tail r5
            | None => None
            end
          | None => None
          end
        | None => None
        end
      | None => None
      end
    | None => None
    end
  | None => None
  end.

(** [re.search] for the timestamp pattern. *)
Fixpoint stamp_search (s : pystr) : bool :=
  match stamp_match s with
  | Some _ => true
  | None => match s with [] => false | _ :: s' => stamp_search s' end
  end.

(** [re.sub] for the timestamp pattern: every match, from the left, is
    replaced by the expansion of the template, the search resuming after
    each.  The pattern has one group, the whole match. *)
Fixpoint stamp_sub_fuel (fuel : nat) (tmpl s : pystr) : res pystr :=
  match fuel with
  | O => Ok s
  | S f =>
      match stamp_match s with
      | Some rest =>
          let m := firstn (length s - length rest) s in
          r <- Re.expand [m; m] tmpl ;;
          tl <- stamp_sub_fuel f tmpl rest ;;
          Ok (r ++ tl)
      | None =>
          match s with
          | [] => Ok []
          | c :: s' => tl <- stamp_sub_fuel f tmpl s' ;; Ok (c :: tl)
          end
      end
  end.

Definition stamp_line (now : pystr) : pystr := stamp_head ++ now ++ stamp_tail.

(** The marker of a template that was never updated. *)
Definition placeholder : pystr :=
  lit "Generated on <span id=" ++ [34%N] ++ lit "current-date" ++ [34%N]
  ++ lit "></span>".

(** Lines 198-208, [now] being the text [strftime] gives the clock. *)
Definition update_stamp (now content : pystr) : res pystr :=
  if stamp_search content then
    _ <- Re.expand [[]; []] (stamp_line now) ;;
    stamp_sub_fuel (S (length content)) (stamp_line now) content
  else Ok (replace placeholder (stamp_line now) content).

(** The text written to the file, and the lines printed on the way. *)
Definition render (ws : list workflow) (now content : pystr)
  : list pystr * res pystr :=
  let (log, c1) := splice_array ws content in
  (log, c1' <- c1 ;; c2 <- splice_check ws c1' ;; update_stamp now c2).

Definition missing_error : pystr :=
  lit "Error: index.html not found in current directory".

(** A surrogate code point: [write] cannot encode a text that holds one. *)
Definition is_surrogate (c : pychar) : bool :=
  ((55296 <=? c) && (c <=? 57343))%N.

Definition has_surrogate (s : pystr) : bool := existsb is_surrogate s.

(** [f.write(updated_content)] on the file opened for writing: [content]
    is the text read from the file, which was decoded from it and holds no
    surrogate; the text to write holds one when a record or the clock text
    brought it in, and the write then raises, the file being left empty by
    [open]. *)
Definition write_text (content updated_content : pystr)
  : res (bool * option pystr) :=
  if has_surrogate updated_content && negb (has_surrogate content)
  then Raise UnicodeEncodeError
  else Ok (true, Some updated_content).

(** [template] is the content of [index.html] when the file exists.  The
    result is the value returned and the content written, if any. *)
Definition update_index_html (ws : list workflow) (now : pystr)
  (template : option pystr) : list pystr * res (bool * option pystr) :=
  match template with
  | None => ([missing_error], Ok (false, None))
  | Some content =>
      let (log, out) := render ws now content in
      (log, c <- out ;; write_text content c)
  end.

End Render.

(** ** Shapes of a sidecar *)

Definition field (key : pystr) (d : list (pystr * json)) (default : json)
  : json :=
  match lookup key d with Some v => v | None => default end.

Definition is_object (v : json) : bool :=
  match v with JDict _ => true | _ => false end.

Definition is_string (v : json) : bool :=
  match v with JStr _ => true | _ => false end.

Definition items (v : json) : list (pystr * json) :=
  match v with JDict d => d | _ => [] end.

(** The sidecar is an object whose [workflow], [inputs] and [execution],
    when present, are objects, and whose [execution.started_at] and, when
    the duration has to be computed, [execution.completed_at] are strings
    when present: every method the loader calls exists. *)
Definition well_shaped (data : json) : bool :=
  match data with
  | JDict d =>
      let ex := field (lit "execution") d (JDict []) in
      is_object (field (lit "workflow") d (JDict []))
      && is_object (field (lit "inputs") d (JDict []))
      && is_object ex
      && is_string (field (lit "started_at") (items ex) (JStr []))
      && (truthy (field (lit "duration_formatted") (items ex) JNull)
          || is_string (field (lit "completed_at") (items ex) (JStr [])))
  | _ => false
  end.

(** [workflow.actor] is absent: there is no [workflow], or it is an object
    without [actor]. *)
Definition nested_absent (outer inner : pystr) (d : list (pystr * json))
  : Prop :=
  lookup outer d = None
  \/ exists o, lookup outer d = Some (JDict o) /\ lookup inner o = None.

(** ** Sample inputs *)

Definition sample_run : pystr := lit "2024-01-01-1".

(** [{"execution": {"started_at": "2024-01-01T10:00:00Z"}}] *)
Definition sidecar_started_only : json :=
  JDict [(lit "execution",
          JDict [(lit "started_at", JStr (lit "2024-01-01T10:00:00Z"))])].

(** [{"workflow": {"actor": "Unknown"}, "inputs": {"release-version": "Unknown"}}] *)
Definition sidecar_unknown : json :=
  JDict [(lit "workflow", JDict [(lit "actor", JStr (lit "Unknown"))]);
         (lit "inputs", JDict [(lit "release-version", JStr (lit "Unknown"))])].

(** [{"workflow": {}, "inputs": {}}] *)
Definition sidecar_empty_objects : json :=
  JDict [(lit "workflow", JDict []); (lit "inputs", JDict [])].

Definition with_sidecar (data : json) : entries :=
  [(metadata_file_name, File (Loads data))].


(** Two sidecar objects that differ at most under the key [outer], where
    one holds the text "Unknown" for [inner] and the other has no [inner]. *)
Definition unknown_vs_missing (outer inner : pystr)
    (d1 d2 : list (pystr * json)) : Prop :=
  exists o1 o2,
    lookup outer d1 = Some (JDict o1) /\ lookup outer d2 = Some (JDict o2)
    /\ lookup inner o1 = Some (JStr (lit "Unknown")) /\ lookup inner o2 = None
    /\ forall k, k <> outer -> lookup k d1 = lookup k d2.

(** [{"workflow": {"actor": "Unknown"}, "inputs": {"release-version": "1.2"}}] *)
Definition sidecar_actor_unknown : json :=
  JDict [(lit "workflow", JDict [(lit "actor", JStr (lit "Unknown"))]);
         (lit "inputs", JDict [(lit "release-version", JStr (lit "1.2"))])].

(** [{"workflow": {}, "inputs": {"release-version": "1.2"}}] *)
Definition sidecar_actor_missing : json :=
  JDict [(lit "workflow", JDict []);
         (lit "inputs", JDict [(lit "release-version", JStr (lit "1.2"))])].

(** ** The form [HH:MM:SS] *)



Definition utc_z (s : pystr) : pystr := replace (lit "Z") (lit "+00:00") s.


(** A sidecar that is not JSON, with the message of the decoder. *)
Definition decode_msg : pystr :=
  lit "Expecting value: line 1 column 1 (char 0)".

Definition broken_sidecar : entries :=
  [(metadata_file_name, File (DecodeError decode_msg))].

(** A run directory after the broken one, without a sidecar. *)
Definition later_runs : entries := [(lit "2024-01-01-0", Dir [])].


(** ** What the scanner keeps *)

(** The entries the loop builds a record for. *)
Definition selected {L : PyLib} (e : pystr * node) : bool :=
  is_dir (snd e) && negb (reserved (fst e))
  && match match_name (fst e) with Some _ => true | None => false end.

(** [w] is the record of the entry [e]. *)
Definition record_of {L : PyLib} (e : pystr * node) (w : workflow) : Prop :=
  name w = fst e
  /\ match_name (fst e) = Some (year w, month w, day w, run_id w)
  /\ exists children,
       snd e = Dir children
       /\ has_index w = exists_in (lit "index.html") children
       /\ job_count w = count_dirs children
       /\ snd (load_workflow_metadata (fst e) children)
          = Ok (mk_metadata (actor w) (release_version w) (started_at w)
                  (duration_formatted w)).

(** The loader returns for every run directory of [es]. *)
Definition loads_all {L : PyLib} (es : entries) : Prop :=
  forall n children, In (n, Dir children) es ->
    selected (n, Dir children) = true ->
    exists md, snd (load_workflow_metadata n children) = Ok md.

(** [n] reads [YYYY-MM-DD-<digits>] and then anything. *)
Definition matches_pattern {L : PyLib} (n : pystr) : Prop :=
  exists y m d r rest,
    n = y ++ lit "-" ++ m ++ lit "-" ++ d ++ lit "-" ++ r ++ rest
    /\ length y = 4 /\ length m = 2 /\ length d = 2 /\ r <> []
    /\ forallb is_decimal (y ++ m ++ d ++ r) = true.


(** [a] comes before [b] in a descending listing. *)
Definition desc (a b : pystr * node) : Prop := leb (fst b) (fst a) = true.

(** A working directory: two runs, one of them with jobs, a summary and a
    sidecar, a directory and a file that are not runs, and the cache
    directory. *)
Definition sample_base : entries :=
  [(lit "2024-01-01-9", Dir []);
   (lit "notes", Dir []);
   (lit "2024-01-02-5-rerun",
      Dir [(lit "job-a", Dir []);
           (lit "index.html", File (DecodeError []));
           (lit "job-b", Dir [(lit "log", Dir [])]);
           (metadata_file_name, File (Loads sidecar_actor_unknown))]);
   (lit "__pycache__", Dir []);
   (lit "2024-01-03-1", File (DecodeError []))].


(** ** Dates and run ids as numbers *)

Fixpoint num_from (acc : Z) (s : pystr) : Z :=
  match s with
  | [] => acc
  | c :: s' => num_from (acc * 10 + (Z.of_N c - 48)) s'
  end.

(** The number a run of ASCII digits writes. *)
Definition num (s : pystr) : Z := num_from 0 s.

Definition date_num (w : workflow) : Z :=
  (num (year w) * 10000 + num (month w) * 100 + num (day w))%Z.

Definition ascii_digits (w : workflow) : Prop :=
  forallb is_ascii_digit (year w) = true
  /\ forallb is_ascii_digit (month w) = true
  /\ forallb is_ascii_digit (day w) = true
  /\ forallb is_ascii_digit (run_id w) = true.

(** [w1] is listed before [w2]: by name. *)
Definition names_desc (w1 w2 : workflow) : Prop :=
  leb (name w2) (name w1) = true.

(** [w1] is listed before [w2]: by date, and by run id for one date when
    the two run ids have as many digits. *)
Definition newest_first (w1 w2 : workflow) : Prop :=
  ascii_digits w1 -> ascii_digits w2 ->
  (date_num w2 <= date_num w1)%Z
  /\ (date_num w2 = date_num w1 ->
      length (run_id w1) = length (run_id w2) ->
      (num (run_id w2) <= num (run_id w1))%Z).

(** By date, and by run id for one date, whatever the digits. *)
Definition newest_first_by_run_id (w1 w2 : workflow) : Prop :=
  (date_num w2 <= date_num w1)%Z
  /\ (date_num w2 = date_num w1 -> (num (run_id w2) <= num (run_id w1))%Z).

Definition names_of (r : list pystr * res (list workflow))
  : option (list pystr) :=
  match snd r with
  | Ok ws => Some (List.map name ws)
  | Raise _ => None
  end.

(** The three directories of the ordering example, as [iterdir] may give
    them. *)
Definition three_runs : entries :=
  [(lit "2024-01-02-5", Dir []); (lit "2024-01-01-9", Dir []);
   (lit "2024-01-02-3", Dir [])].

(** Two runs of one day. *)
Definition two_runs_one_day : entries :=
  [(lit "2024-01-02-10", Dir []); (lit "2024-01-02-9", Dir [])].


(** ** Texts without a backslash *)

Definition backslash_free (s : pystr) : bool :=
  forallb (fun c => negb (c =? Re.backslash)%N) s.

(** No string of a record holds a backslash. *)
Definition plain_records {L : PyLib} (ws : list workflow) : Prop :=
  Forall (fun w => backslash_free (js_entry w) = true) ws.


(** The text put in place of the returned expression of the helper. *)
Definition check_body {L : PyLib} (ws : list workflow) : pystr :=
  lit "[" ++ index_list_js ws ++ lit "].includes(workflowName)".


(** ** Sample pages and records *)

(** A page as it is before the first update: the data array under the old
    name, the helper and the footer marker. *)
Definition fresh_page : pystr :=
  lit "<footer>" ++ placeholder ++ lit "</footer><script>"
  ++ old_decl ++ lit " 'stale' " ++ array_end
  ++ lit " function checkForIndex(workflowName) { return false; }"
  ++ lit "</script>".

Definition clock1 : pystr := lit "2024-05-05 01:02:03".
Definition clock2 : pystr := lit "2024-05-06 04:05:06".

Definition run_with_summary : workflow :=
  mk_workflow (lit "2024-01-02-5") (lit "2024") (lit "01") (lit "02") (lit "5")
    true 3 (JStr (lit "bob")) JNull JNull (JStr (lit "01:30:15")).

Definition run_without_summary : workflow :=
  mk_workflow (lit "2024-01-01-9") (lit "2024") (lit "01") (lit "01") (lit "9")
    false 0 JNull (JStr (lit "1.2")) JNull JNull.

Definition sample_records : list workflow :=
  [run_with_summary; run_without_summary].

(** A run whose actor is written with a backslash, as [DOMAIN\user]. *)
Definition run_of_domain_user : workflow :=
  mk_workflow (lit "2024-01-03-1") (lit "2024") (lit "01") (lit "03") (lit "1")
    false 0 (JStr (lit "DOMAIN\user")) JNull JNull JNull.


(** ** Pages with one data array *)





(** ** Pages that show the current records *)

Definition check_return : pystr := lit "return ".
Definition semicolon : pystr := lit ";".
Definition brace : pystr := lit "}".





(** ** main and the entry block *)

Definition scanning_msg : pystr := lit "Scanning workflow directories...".
Definition none_found_msg : pystr := lit "No workflow directories found.".

Definition found_msg (n : nat) : pystr :=
  lit "Found " ++ of_nat n ++ lit " workflow directories:".

(** The line of one run in the listing (lines 228-229). *)
Definition listing_line (w : workflow) : pystr :=
  let status := if has_index w then [9989%N] ++ lit " Summary"
                else [128193%N] ++ lit " Raw files" in
  lit "  " ++ name w ++ lit " (" ++ of_nat (job_count w) ++ lit " jobs) - "
  ++ status.

Definition more_msg (n : nat) : pystr :=
  lit "  ... and " ++ of_nat n ++ lit " more".

Definition updating_msg : pystr := [newline] ++ lit "Updating index.html...".
Definition success_msg : pystr :=
  [9989%N] ++ lit " Successfully updated index.html".
Definition open_msg : pystr :=
  [127760%N] ++ lit " Open workflow-results/index.html in your browser to view the updated listing".
Definition failed_msg : pystr := [10060%N] ++ lit " Failed to update index.html".

(** The lines printed between the scan and the update (lines 226-234). *)
Definition listing (ws : list workflow) : list pystr :=
  found_msg (length ws) :: List.map listing_line (firstn 5 ws)
  ++ (if Nat.ltb 5 (length ws) then [more_msg (length ws - 5)] else [])
  ++ [updating_msg].

(** [main()] in the directory [base], whose [index.html] has the text
    [template] when it exists: the lines printed, and the text written to
    [index.html], if any. *)
Definition main {L : PyLib} (base : entries) (now : pystr)
    (template : option pystr) : list pystr * res (option pystr) :=
  match scan_workflow_directories base with
  | (log, Raise e) => (scanning_msg :: log, Raise e)
  | (log, Ok []) => (scanning_msg :: log ++ [none_found_msg], Ok None)
  | (log, Ok ws) =>
      match update_index_html ws now template with
      | (log', Raise e) =>
          (scanning_msg :: log ++ listing ws ++ log', Raise e)
      | (log', Ok (true, out)) =>
          (scanning_msg :: log ++ listing ws ++ log'
           ++ [success_msg; open_msg], Ok out)
      | (log', Ok (false, out)) =>
          (scanning_msg :: log ++ listing ws ++ log' ++ [failed_msg], Ok out)
      end
  end.

Definition generator_name : pystr := lit "generate-workflow-summary.py".
Definition results_name : pystr := lit "workflow-results".

Definition wrong_directory_msg : pystr :=
  lit "Error: Please run this script from the project root or workflow-results directory".

(** The directory [main] runs in (lines 244-249): the current one when it
    holds the generator script, else its [workflow-results] when that one
    does; [None] is [exit(1)]. *)
Definition working_directory (cwd : entries) : option (bool * entries) :=
  if exists_in generator_name cwd then Some (false, cwd)
  else
    match child results_name cwd with
    | Some (Dir sub) =>
        if exists_in generator_name sub then Some (true, sub) else None
    | _ => None
    end.

(** How the process ends: [exit(1)] before [main], or [main] run to its
    end or to an exception. *)
Inductive ending : Type :=
| Exit1
| Ran (r : res (option pystr)).

(** The script, started in [cwd]; [template_here] and [template_results]
    are the texts of [index.html] and of [workflow-results/index.html]
    when these files exist. *)
Definition script {L : PyLib} (cwd : entries) (now : pystr)
    (template_here template_results : option pystr) : list pystr * ending :=
  match working_directory cwd with
  | None => ([wrong_directory_msg], Exit1)
  | Some (moved, base) =>
      let (log, r) := main base now
                        (if moved then template_results else template_here) in
      (log, Ran r)
  end.


(** [rest] does not go on with a digit. *)
Definition no_digit_ahead {L : PyLib} (rest : pystr) : Prop :=
  match rest with
  | c :: _ => is_decimal c = false
  | [] => True
  end.


(** What the loader prints for the directory [e]. *)
Definition warnings_of (e : pystr * node) : list pystr :=
  match snd e with
  | Dir children => fst (load_workflow_metadata (fst e) children)
  | File _ => []
  end.


(** [s] neither starts nor ends with white space. *)
Definition trimmed (s : pystr) : Prop :=
  match s with c :: _ => is_space c = false | [] => True end
  /\ match rev s with c :: _ => is_space c = false | [] => True end.

(** [{"execution": {"started_at": "  2024-01-01T10:00:00Z ",
                    "completed_at": "2024-01-01T11:30:15Z\n",
                    "duration_formatted": ""}}] *)
Definition sidecar_padded : json :=
  JDict [(lit "execution",
          JDict [(lit "started_at", JStr (lit "  2024-01-01T10:00:00Z "));
                 (lit "completed_at",
                    JStr (lit "2024-01-01T11:30:15Z" ++ [10%N]));
                 (lit "duration_formatted", JStr [])])].

(** [{"execution": {"started_at": "   ", "completed_at": 7,
                    "duration_formatted": "2h"}}] *)
Definition sidecar_preformatted : json :=
  JDict [(lit "execution",
          JDict [(lit "started_at", JStr (lit "   "));
                 (lit "completed_at", JInt 7);
                 (lit "duration_formatted", JStr (lit "2h"))])].


(** The fields of a record are absent or meaningful: the start is a
    text that is not empty and has no white space at either end, the
    duration counts as true, and the sentinel is not shown. *)
Definition normalized (md : metadata) : Prop :=
  (m_started_at md = JNull
   \/ exists s, m_started_at md = JStr s /\ s <> [] /\ trimmed s)
  /\ (m_duration_formatted md = JNull
      \/ truthy (m_duration_formatted md) = true)
  /\ m_actor md <> JStr (lit "Unknown")
  /\ m_release_version md <> JStr (lit "Unknown").

(** The timestamp carries a UTC offset. *)
Definition aware (d : Datetime.datetime) : bool :=
  match Datetime.utcoffset d with Some _ => true | None => false end.


(** What [replace] does to one character when [old] is the character [c]. *)
Definition replace_one (c : pychar) (new : pystr) (x : pychar) : pystr :=
  if N.eqb x c then new else [x].


(** A page with none of the texts the renderer looks for. *)
Definition plain_page : pystr := lit "<html><body>No data yet</body></html>".


(** ** The timestamp line *)

(** [now] has the form [strftime('%Y-%m-%d %H:%M:%S')] gives a date of
    four-digit year. *)
Definition clock_form (now : pystr) : Prop :=
  exists y mo d h mi s,
    now = y ++ lit "-" ++ mo ++ lit "-" ++ d ++ lit " "
          ++ h ++ lit ":" ++ mi ++ lit ":" ++ s
    /\ length y = 4 /\ length mo = 2 /\ length d = 2
    /\ length h = 2 /\ length mi = 2 /\ length s = 2
    /\ forallb is_ascii_digit (y ++ mo ++ d ++ h ++ mi ++ s) = true.

(** The timestamp pattern matches at no place of [pre] in the text
    [pre ++ tail]. *)
Fixpoint stamp_free_before {L : PyLib} (pre tail : pystr) : bool :=
  match pre with
  | [] => true
  | _ :: pre' =>
      match stamp_match (pre ++ tail) with
      | Some _ => false
      | None => stamp_free_before pre' tail
      end
  end.


(** A project root: the generator script is in [workflow-results], with
    one run. *)
Definition project_root : entries :=
  [(lit "README.md", File (DecodeError []));
   (results_name,
      Dir [(generator_name, File (DecodeError []));
           (lit "index.html", File (DecodeError []));
           (lit "2024-01-01-9", Dir [])])].

(** A directory without run directories. *)
Definition no_runs : entries :=
  [(lit "notes", Dir []); (lit "index.html", File (DecodeError []));
   (lit "2024-01-03-1", File (DecodeError []))].




(** The sidecars on which the loader raises [e]: a directory of that name,
    a file [open] or [json.load] fails on other than by a
    [JSONDecodeError], and a parsed value of the wrong shape. *)
Definition sidecar_raises (dir : entries) (e : exn) : Prop :=
  (exists c, child metadata_file_name dir = Some (Dir c)
             /\ e = IsADirectoryError)
  \/ (exists f, child metadata_file_name dir = Some (File (LoadFails f))
                /\ e = failure_exn f)
  \/ (exists data, child metadata_file_name dir = Some (File (Loads data))
                   /\ well_shaped data = false /\ e = AttributeError).


(** ** Texts the file can take *)


(** A run directory whose name holds a byte that is not UTF-8, which
    [os.listdir] gives as the surrogate U+DC80. *)
Definition run_with_surrogate : workflow :=
  mk_workflow (lit "2024-01-04-1" ++ [56448%N]) (lit "2024") (lit "01")
    (lit "04") (lit "1") false 0 JNull JNull JNull JNull.


(** The characters of a string value. *)
Definition text (v : json) : pystr :=
  match v with JStr s => s | _ => [] end.

(** The value of [inner] in the object under [outer], each with its
    default. *)
Definition nested (outer inner : pystr) (d : list (pystr * json))
    (default : json) : json :=
  field inner (items (field outer d (JDict []))) default.

(** Lines 70-71: the text "Unknown" becomes [None]. *)
Definition unless_unknown (v : json) : json :=
  if negb (is_unknown v) then v else JNull.

(** Lines 56 and 72: the start without the white space at its ends, [None]
    when nothing is left. *)
Definition stripped_start (v : json) : json :=
  if eqb (strip (text v)) [] then JNull else JStr (strip (text v)).


(** ** Pages laid out as the generated page *)











(** A run whose actor is written as a timestamp line. *)
Definition run_of_stamp_actor : workflow :=
  mk_workflow (lit "2024-01-03-1") (lit "2024") (lit "01") (lit "03") (lit "1")
    false 0 (JStr (stamp_line clock1)) JNull JNull JNull.


(** * Verified properties *)

(** ** Basic facts on strings *)

Lemma eqb_eq (a b : pystr) : eqb a b = true <-> a = b.
Proof.
  revert b; induction a as [|x a IH]; intros [|y b]; simpl;
    try (split; [discriminate | discriminate]); try tauto.
  rewrite andb_true_iff, N.eqb_eq, IH.
  split; [intros [-> ->]; reflexivity | intros H; inversion H; auto].
Qed.

Lemma eqb_refl (a : pystr) : eqb a a = true.
Proof. apply eqb_eq; reflexivity. Qed.

Lemma eqb_neq (a b : pystr) : eqb a b = false <-> a <> b.
Proof.
  rewrite <- eqb_eq. destruct (eqb a b); split; congruence.
Qed.

(** ** The metadata loader *)

Lemma get_dict (d : list (pystr * json)) key default :
  get (JDict d) key default = Ok (field key d default).
Proof. reflexivity. Qed.

Lemma get_ok v key default r :
  get v key default = Ok r -> exists d, v = JDict d /\ r = field key d default.
Proof.
  destruct v; simpl; try discriminate.
  intros H; inversion H; eauto.
Qed.

Lemma bind_ok {A B} (m : res A) (k : A -> res B) b :
  bind m k = Ok b -> exists a, m = Ok a /\ k a = Ok b.
Proof. destruct m; simpl; [eauto | discriminate]. Qed.

(** What a returned record says of the actor and of the release version. *)
Lemma extract_metadata_sentinels d md :
  extract_metadata (JDict d) = Ok md ->
  exists wf inp,
    field (lit "workflow") d (JDict []) = JDict wf
    /\ field (lit "inputs") d (JDict []) = JDict inp
    /\ m_actor md =
         (let a := field (lit "actor") wf (JStr (lit "Unknown")) in
          if negb (is_unknown a) then a else JNull)
    /\ m_release_version md =
         (let r := field (lit "release-version") inp (JStr (lit "Unknown")) in
          if negb (is_unknown r) then r else JNull).
Proof.
  unfold extract_metadata. rewrite get_dict. cbn [bind].
  intros H.
  apply bind_ok in H as (actor & Ha & H).
  apply get_ok in Ha as (wf & Hwf & ->).
  rewrite get_dict in H. cbn [bind] in H.
  apply bind_ok in H as (rel & Hr & H).
  apply get_ok in Hr as (inp & Hinp & ->).
  repeat (apply bind_ok in H as (? & _ & H)).
  inversion H; subst; clear H. cbn.
  exists wf, inp. auto.
Qed.

Lemma is_object_items v : is_object v = true -> v = JDict (items v).
Proof. destruct v; simpl; congruence. Qed.

Lemma is_string_strip v :
  is_string v = true -> exists s, strip_value v = Ok s.
Proof. destruct v; simpl; try discriminate; eauto. Qed.

(** A well-shaped sidecar is always turned into a record. *)
Lemma extract_metadata_returns data :
  well_shaped data = true -> exists md, extract_metadata data = Ok md.
Proof.
  destruct data as [| | | | |l|d]; simpl; try discriminate.
  rewrite !andb_true_iff.
  intros [[[[Hw Hi] He] Hs] Hc].
  unfold extract_metadata. rewrite !get_dict. cbn [bind].
  rewrite (is_object_items _ Hw), (is_object_items _ Hi),
    (is_object_items _ He), !get_dict. cbn [bind].
  destruct (is_string_strip _ Hs) as [s ->]. cbn [bind].
  destruct (truthy (field (lit "duration_formatted") _ JNull)) eqn:Ht.
  - cbn. eauto.
  - simpl in Hc. destruct (is_string_strip _ Hc) as [c Hc'].
    cbn [negb]. rewrite Hc'. cbn [bind].
    destruct (negb (eqb s []) && negb (eqb c [])); cbn; eauto.
Qed.

Lemma nested_absent_field outer inner d default :
  nested_absent outer inner d ->
  forall o, field outer d (JDict []) = JDict o ->
  field inner o default = default.
Proof.
  unfold field. intros [H | (o' & H & Hi)] o; rewrite H.
  - intros E; inversion E; reflexivity.
  - intros E; inversion E; subst. rewrite Hi. reflexivity.
Qed.

(** C6. When a sidecar object has no [workflow.actor], every record the
    loader returns has the actor absent, not the text "Unknown", and a
    well-shaped sidecar does give a record, without a warning; the same
    holds of [inputs.release-version] and the release version. *)
Theorem missing_field_is_absent (dir_name : pystr) (dir : entries)
    (d : list (pystr * json))
    (Hfile : child metadata_file_name dir = Some (File (Loads (JDict d)))) :
  (nested_absent (lit "workflow") (lit "actor") d ->
     (forall md, snd (load_workflow_metadata dir_name dir) = Ok md ->
        m_actor md = JNull /\ m_actor md <> JStr (lit "Unknown"))
     /\ (well_shaped (JDict d) = true ->
         exists md, load_workflow_metadata dir_name dir = ([], Ok md)
                    /\ m_actor md = JNull))
  /\ (nested_absent (lit "inputs") (lit "release-version") d ->
     (forall md, snd (load_workflow_metadata dir_name dir) = Ok md ->
        m_release_version md = JNull
        /\ m_release_version md <> JStr (lit "Unknown"))
     /\ (well_shaped (JDict d) = true ->
         exists md, load_workflow_metadata dir_name dir = ([], Ok md)
                    /\ m_release_version md = JNull)).
Proof.
  unfold load_workflow_metadata. rewrite Hfile. cbn [snd].
  assert (Hact : nested_absent (lit "workflow") (lit "actor") d ->
            forall md, extract_metadata (JDict d) = Ok md ->
            m_actor md = JNull).
  { intros Habs md Hmd.
    destruct (extract_metadata_sentinels _ Hmd) as (wf & inp & Hw & _ & Ha & _).
    rewrite Ha. cbv zeta.
    rewrite (nested_absent_field _ Habs Hw). reflexivity. }
  assert (Hrel : nested_absent (lit "inputs") (lit "release-version") d ->
            forall md, extract_metadata (JDict d) = Ok md ->
            m_release_version md = JNull).
  { intros Habs md Hmd.
    destruct (extract_metadata_sentinels _ Hmd) as (wf & inp & _ & Hi & _ & Hr).
    rewrite Hr. cbv zeta.
    rewrite (nested_absent_field _ Habs Hi). reflexivity. }
  split; intros Habs; (split; [intros md Hmd | intros Hshape]).
  - rewrite (Hact Habs md Hmd). split; [reflexivity | discriminate].
  - destruct (extract_metadata_returns _ Hshape) as [md Hmd].
    exists md. rewrite Hmd. auto.
  - rewrite (Hrel Habs md Hmd). split; [reflexivity | discriminate].
  - destruct (extract_metadata_returns _ Hshape) as [md Hmd].
    exists md. rewrite Hmd. auto.
Qed.

(** The sidecar that gives the start only: the actor and the release
    version are absent in the record it gives. *)
Lemma missing_field_is_absent_witness :
  (exists md,
      load_workflow_metadata sample_run (with_sidecar sidecar_started_only)
      = ([], Ok md) /\ m_actor md = JNull)
  /\ (exists md,
      load_workflow_metadata sample_run (with_sidecar sidecar_started_only)
      = ([], Ok md) /\ m_release_version md = JNull).
Proof.
  destruct (@missing_field_is_absent sample_run
              (with_sidecar sidecar_started_only) _ eq_refl) as [Ha Hr].
  split.
  - destruct (Ha (or_introl eq_refl)) as [_ H]. exact (H eq_refl).
  - destruct (Hr (or_introl eq_refl)) as [_ H]. exact (H eq_refl).
Defined.

Lemma field_other outer d1 d2 k default :
  (forall k, k <> outer -> lookup k d1 = lookup k d2) ->
  k <> outer -> field k d1 default = field k d2 default.
Proof. intros H Hk. unfold field. rewrite (H k Hk). reflexivity. Qed.

Lemma field_some k d default v :
  lookup k d = Some v -> field k d default = v.
Proof. unfold field. intros ->. reflexivity. Qed.

Lemma field_none k d default :
  lookup k d = None -> field k d default = default.
Proof. unfold field. intros ->. reflexivity. Qed.

Lemma lit_neq (a b : string) : eqb (lit a) (lit b) = false -> lit a <> lit b.
Proof. apply eqb_neq. Qed.

(** C10. A sidecar that spells the actor "Unknown" gives the loader's
    result for the same sidecar without the actor, and likewise for the
    release version: the explicit text and the missing field cannot be
    told apart in what is returned. *)
Theorem explicit_unknown_is_absent (dir_name : pystr) (dir1 dir2 : entries)
    (d1 d2 : list (pystr * json))
    (Hfile1 : child metadata_file_name dir1 = Some (File (Loads (JDict d1))))
    (Hfile2 : child metadata_file_name dir2 = Some (File (Loads (JDict d2))))
    (Hdiff : unknown_vs_missing (lit "workflow") (lit "actor") d1 d2
             \/ unknown_vs_missing (lit "inputs") (lit "release-version") d1 d2) :
  load_workflow_metadata dir_name dir1 = load_workflow_metadata dir_name dir2
  /\ forall md, snd (load_workflow_metadata dir_name dir1) = Ok md ->
       (unknown_vs_missing (lit "workflow") (lit "actor") d1 d2 ->
        m_actor md = JNull)
       /\ (unknown_vs_missing (lit "inputs") (lit "release-version") d1 d2 ->
           m_release_version md = JNull).
Proof.
  split.
  - unfold load_workflow_metadata. rewrite Hfile1, Hfile2. f_equal.
    unfold extract_metadata. rewrite !get_dict. cbn [bind].
    destruct Hdiff as [(o1 & o2 & H1 & H2 & Hu & Hm & Hk)
                      |(o1 & o2 & H1 & H2 & Hu & Hm & Hk)].
    + rewrite (@field_other _ d1 d2 (lit "inputs") _ Hk)
        by (apply lit_neq; reflexivity).
      rewrite (@field_other _ d1 d2 (lit "execution") _ Hk)
        by (apply lit_neq; reflexivity).
      rewrite (@field_some _ _ _ _ H1), (@field_some _ _ _ _ H2), !get_dict.
      cbn [bind].
      rewrite (@field_some _ _ _ _ Hu), (@field_none _ _ _ Hm). reflexivity.
    + rewrite (@field_other _ d1 d2 (lit "workflow") _ Hk)
        by (apply lit_neq; reflexivity).
      rewrite (@field_other _ d1 d2 (lit "execution") _ Hk)
        by (apply lit_neq; reflexivity).
      destruct (get (field (lit "workflow") d2 (JDict [])) (lit "actor")
                  (JStr (lit "Unknown"))) as [actor|e]; [|reflexivity].
      cbn [bind].
      rewrite (@field_some _ _ _ _ H1), (@field_some _ _ _ _ H2), !get_dict.
      cbn [bind].
      rewrite (@field_some _ _ _ _ Hu), (@field_none _ _ _ Hm). reflexivity.
  - unfold load_workflow_metadata. rewrite Hfile1. cbn [snd].
    intros md Hmd.
    destruct (extract_metadata_sentinels _ Hmd)
      as (wf & inp & Hw & Hi & Ha & Hr).
    split; intros (o1 & o2 & H1 & _ & Hu & _).
    + rewrite (@field_some _ _ _ _ H1) in Hw. inversion Hw; subst.
      rewrite Ha, (@field_some _ _ _ _ Hu). reflexivity.
    + rewrite (@field_some _ _ _ _ H1) in Hi. inversion Hi; subst.
      rewrite Hr, (@field_some _ _ _ _ Hu). reflexivity.
Qed.

(** An actor spelled "Unknown" and no actor at all, the release version
    being given in both sidecars. *)
Lemma explicit_unknown_is_absent_witness :
  load_workflow_metadata sample_run (with_sidecar sidecar_actor_unknown)
  = load_workflow_metadata sample_run (with_sidecar sidecar_actor_missing).
Proof.
  refine (proj1 (@explicit_unknown_is_absent sample_run
                   (with_sidecar sidecar_actor_unknown)
                   (with_sidecar sidecar_actor_missing) _ _
                   eq_refl eq_refl (or_introl _))).
  exists [(lit "actor", JStr (lit "Unknown"))], [].
  repeat split; try reflexivity.
  intros k Hk. simpl.
  destruct (eqb k (lit "workflow")) eqn:E; [|reflexivity].
  apply eqb_eq in E. contradiction.
Defined.

(** ** Decimal numerals *)






(** ** The float quotient of [total_seconds] *)





(** The float is exact up to 2^34 seconds and not beyond: over a span of
    544 years and 150 days that ends one microsecond before a whole second,
    the quotient rounds up to that second. *)
Example long_span_rounds_up :
  Datetime.int_total_seconds 17179869184999999 = 17179869185%Z
  /\ (17179869184999999 / 1000000 = 17179869184)%Z
  /\ calculate_duration (lit "1400-01-01T00:00:00")
       (lit "1944-05-30T01:53:04.999999") = Some (lit "4772185:53:05").
Proof. vm_compute. repeat split. Qed.




Lemma extract_metadata_start d md :
  extract_metadata (JDict d) = Ok md ->
  m_started_at md
  = stripped_start (nested (lit "execution") (lit "started_at") d (JStr [])).
Proof.
  unfold extract_metadata. rewrite get_dict. cbn [bind]. intros H.
  apply bind_ok in H as (actor & _ & H).
  rewrite get_dict in H. cbn [bind] in H.
  apply bind_ok in H as (rel & _ & H).
  rewrite get_dict in H. cbn [bind] in H.
  apply bind_ok in H as (sa & Hsa & H).
  apply get_ok in Hsa as (ex & Hex & ->).
  apply bind_ok in H as (started & Hst & H).
  apply bind_ok in H as (d0 & _ & H).
  apply bind_ok in H as (d1 & _ & H).
  inversion H; subst; clear H. cbn [m_started_at].
  unfold stripped_start, nested. rewrite Hex. cbn [items].
  destruct (field (lit "started_at") ex (JStr [])); try discriminate Hst.
  inversion Hst; subst. reflexivity.
Qed.

(** C1 (as amended). A sidecar on which [json.load] raises its
    [JSONDecodeError] makes the loader print one warning, which names the
    directory and the parse error, and return the four fields absent; the
    scan then goes on with the directories that remain.  For a sidecar
    that parses to an object of the expected shape no warning is printed
    and every field is defaulted on its own: the actor and the release
    version are the values given unless missing or "Unknown", the start is
    the text given without the white space at its ends unless nothing is
    left.  So an object without [workflow], [inputs] and [execution] gives
    the four fields absent, and an object that has a part of them keeps
    what it gives. *)
Theorem malformed_sidecar_degrades {L : PyLib} (n : pystr) (rest : entries) :
  (forall children msg,
      child metadata_file_name children = Some (File (DecodeError msg)) ->
      load_workflow_metadata n children
      = ([parse_warning n msg], Ok no_metadata)
      /\ forall y m d r,
          reserved n = false -> match_name n = Some (y, m, d, r) ->
          scan_loop ((n, Dir children) :: rest)
          = (parse_warning n msg :: fst (scan_loop rest),
             ws <- snd (scan_loop rest) ;;
             Ok (mk_workflow n y m d r
                   (exists_in (lit "index.html") children)
                   (count_dirs children) JNull JNull JNull JNull :: ws)))
  /\ (forall children dd,
      child metadata_file_name children = Some (File (Loads (JDict dd))) ->
      well_shaped (JDict dd) = true ->
      exists md,
        load_workflow_metadata n children = ([], Ok md)
        /\ m_actor md
           = unless_unknown
               (nested (lit "workflow") (lit "actor") dd
                  (JStr (lit "Unknown")))
        /\ m_release_version md
           = unless_unknown
               (nested (lit "inputs") (lit "release-version") dd
                  (JStr (lit "Unknown")))
        /\ m_started_at md
           = stripped_start
               (nested (lit "execution") (lit "started_at") dd (JStr [])))
  /\ (forall children dd,
      child metadata_file_name children = Some (File (Loads (JDict dd))) ->
      lookup (lit "workflow") dd = None ->
      lookup (lit "inputs") dd = None ->
      lookup (lit "execution") dd = None ->
      load_workflow_metadata n children = ([], Ok no_metadata)).
Proof.
  split; [|split].
  - intros children msg Hfile.
    assert (Hload : load_workflow_metadata n children
                    = ([parse_warning n msg], Ok no_metadata)).
    { unfold load_workflow_metadata. rewrite Hfile. reflexivity. }
    split; [exact Hload|].
    intros y m d r Hres Hmatch.
    cbn [scan_loop]. rewrite Hres, Hmatch, Hload. cbn [negb].
    destruct (scan_loop rest) as [log' ws]. reflexivity.
  - intros children dd Hfile Hshape.
    unfold load_workflow_metadata. rewrite Hfile.
    destruct (extract_metadata_returns _ Hshape) as [md Hmd].
    exists md. rewrite Hmd. split; [reflexivity|].
    destruct (extract_metadata_sentinels _ Hmd)
      as (wf & inp & Hwf & Hinp & Ha & Hr).
    unfold unless_unknown, nested. rewrite Hwf, Hinp. cbn [items].
    split; [exact Ha|]. split; [exact Hr|].
    apply extract_metadata_start. exact Hmd.
  - intros children dd Hfile Hw Hi He.
    unfold load_workflow_metadata. rewrite Hfile.
    unfold extract_metadata. rewrite !get_dict.
    rewrite (@field_none _ _ _ Hw), (@field_none _ _ _ Hi),
      (@field_none _ _ _ He).
    reflexivity.
Qed.

(** A run with a sidecar that is not JSON, followed by another run; a run
    whose sidecar is the empty object; and a run whose sidecar gives the
    start only. *)
Lemma malformed_sidecar_degrades_witness :
  @scan_loop ascii_lib ((sample_run, Dir broken_sidecar) :: later_runs)
  = (parse_warning sample_run decode_msg :: fst (@scan_loop ascii_lib later_runs),
     ws <- snd (@scan_loop ascii_lib later_runs) ;;
     Ok (mk_workflow sample_run (lit "2024") (lit "01") (lit "01") (lit "1")
           false 0 JNull JNull JNull JNull :: ws))
  /\ load_workflow_metadata sample_run (with_sidecar (JDict []))
     = ([], Ok no_metadata)
  /\ exists md,
       load_workflow_metadata sample_run (with_sidecar sidecar_started_only)
       = ([], Ok md)
       /\ m_actor md = JNull
       /\ m_release_version md = JNull
       /\ m_started_at md = JStr (lit "2024-01-01T10:00:00Z").
Proof.
  destruct (@malformed_sidecar_degrades ascii_lib sample_run later_runs)
    as (Hbad & Hkeep & Hempty).
  split; [|split].
  - exact (proj2 (Hbad broken_sidecar decode_msg eq_refl)
             _ _ _ _ eq_refl eq_refl).
  - exact (Hempty (with_sidecar (JDict [])) [] eq_refl eq_refl eq_refl eq_refl).
  - exact (Hkeep (with_sidecar sidecar_started_only) _ eq_refl eq_refl).
Defined.

(** C1, the claim as stated fails: a sidecar that parses but has neither
    [workflow] nor [inputs] is read without a warning, and the start it
    gives is returned. *)
Lemma incomplete_sidecar_counterexample :
  fst (load_workflow_metadata sample_run (with_sidecar sidecar_started_only))
  = []
  /\ snd (load_workflow_metadata sample_run (with_sidecar sidecar_started_only))
     = Ok (mk_metadata JNull JNull (JStr (lit "2024-01-01T10:00:00Z")) JNull)
  /\ snd (load_workflow_metadata sample_run (with_sidecar sidecar_started_only))
     <> Ok no_metadata.
Proof.
  split; [reflexivity|]. split; [vm_compute; reflexivity|].
  vm_compute. discriminate.
Qed.

(** A sidecar that parses to a value other than an object (here the list
    [[]]) makes [data.get] raise an [AttributeError], which the [except]
    clause does not name: the scan ends there. *)
Example non_object_sidecar_ends_scan :
  @scan_workflow_directories ascii_lib
    [(sample_run, Dir (with_sidecar (JList []))); (lit "2024-01-01-0", Dir [])]
  = ([], Raise AttributeError).
Proof. vm_compute. reflexivity. Qed.

(** A sidecar whose bytes are not UTF-8 makes [json.load] raise a
    [UnicodeDecodeError], which the [except] clause does not name either:
    no warning is printed and the scan ends there. *)
Example undecodable_sidecar_ends_scan :
  @scan_workflow_directories ascii_lib
    [(sample_run, Dir [(metadata_file_name, File (LoadFails NotUtf8))]);
     (lit "2024-01-01-0", Dir [])]
  = ([], Raise UnicodeDecodeError).
Proof. vm_compute. reflexivity. Qed.

(** ** The scanner *)

Section ScanFacts.

Context {L : PyLib}.

Lemma scan_loop_records : forall es log ws,
  scan_loop es = (log, Ok ws) -> Forall2 record_of (filter selected es) ws.
Proof.
  induction es as [|[n x] es IH]; intros log ws H.
  - inversion H. constructor.
  - cbn [scan_loop] in H. cbn [filter]. unfold selected at 1. cbn [fst snd].
    destruct x as [c|children]; cbn [is_dir andb]; [eauto|].
    destruct (reserved n); cbn [negb andb] in *; [eauto|].
    destruct (match_name n) as [[[[y m] d] r]|] eqn:Hm; [|eauto].
    destruct (load_workflow_metadata n children) as [l [md|e]] eqn:Hl;
      [|discriminate].
    destruct (scan_loop es) as [log' [ws'|e]] eqn:Hs; [|discriminate].
    inversion H; subst. constructor; [|eauto].
    split; [reflexivity|]. split; [exact Hm|].
    exists children. cbn [fst snd]. rewrite Hl. destruct md.
    repeat split; reflexivity.
Qed.

Lemma scan_loop_returns : forall es,
  loads_all es -> exists log ws, scan_loop es = (log, Ok ws).
Proof.
  induction es as [|[n x] es IH]; intros Hall.
  - simpl. eauto.
  - assert (Hes : loads_all es).
    { intros n' c' Hin. apply Hall. right. exact Hin. }
    destruct (IH Hes) as (log' & ws' & Hs).
    cbn [scan_loop].
    destruct x as [c|children]; [eauto|].
    destruct (reserved n) eqn:Hr; cbn [negb]; [eauto|].
    destruct (match_name n) as [[[[y m] d] r]|] eqn:Hm; [|eauto].
    destruct (Hall n children) as [md Hmd]; [left; reflexivity | |].
    { unfold selected. cbn. rewrite Hr, Hm. reflexivity. }
    destruct (load_workflow_metadata n children) as [l o]. cbn in Hmd.
    subst o. rewrite Hs. cbn. eauto.
Qed.

End ScanFacts.

Section PatternFacts.

Context {L : PyLib}.

Lemma take_decimals_some k s d r :
  take_decimals k s = Some (d, r)
  <-> s = d ++ r /\ length d = k /\ forallb is_decimal d = true.
Proof.
  unfold take_decimals. split.
  - destruct (Nat.eqb_spec (length (firstn k s)) k) as [Hlen|]; [|discriminate].
    destruct (forallb is_decimal (firstn k s)) eqn:Hd; [|discriminate].
    cbn [andb]. intros H; inversion H; subst.
    rewrite firstn_skipn. auto.
  - intros (-> & Hlen & Hd). subst k.
    rewrite firstn_app, Nat.sub_diag, firstn_all, firstn_O, app_nil_r.
    rewrite Nat.eqb_refl, Hd. cbn [andb].
    rewrite skipn_app, Nat.sub_diag, skipn_all, skipn_O. reflexivity.
Qed.

Lemma expect_some c s r : expect c s = Some r <-> s = c :: r.
Proof.
  destruct s as [|x s]; simpl; [split; discriminate|].
  destruct (N.eqb_spec x c) as [->|Hne]; split; intros H.
  - inversion H; reflexivity.
  - inversion H; reflexivity.
  - discriminate.
  - inversion H; subst. contradiction.
Qed.

Lemma span_decimals_spec s :
  s = fst (span_decimals s) ++ snd (span_decimals s)
  /\ forallb is_decimal (fst (span_decimals s)) = true.
Proof.
  induction s as [|c s [IH1 IH2]]; simpl; [auto|].
  destruct (is_decimal c) eqn:Hc; [|auto].
  destruct (span_decimals s) as [d r]. simpl in *.
  rewrite Hc, IH2. split; [congruence | reflexivity].
Qed.

Lemma span_decimals_head c s :
  is_decimal c = true -> fst (span_decimals (c :: s)) <> [].
Proof.
  intros Hc. simpl. rewrite Hc. destruct (span_decimals s). discriminate.
Qed.

(** The groups of a name that matches. *)
Lemma match_name_some n y m d r :
  match_name n = Some (y, m, d, r) ->
  exists rest,
    n = y ++ lit "-" ++ m ++ lit "-" ++ d ++ lit "-" ++ r ++ rest
    /\ length y = 4 /\ length m = 2 /\ length d = 2 /\ r <> []
    /\ forallb is_decimal y = true /\ forallb is_decimal m = true
    /\ forallb is_decimal d = true /\ forallb is_decimal r = true.
Proof.
  unfold match_name.
  destruct (take_decimals 4 n) as [[y' r1]|] eqn:H1; [|discriminate].
  destruct (expect dash r1) as [r1'|] eqn:E1; [|discriminate].
  destruct (take_decimals 2 r1') as [[m' r2]|] eqn:H2; [|discriminate].
  destruct (expect dash r2) as [r2'|] eqn:E2; [|discriminate].
  destruct (take_decimals 2 r2') as [[d' r3]|] eqn:H3; [|discriminate].
  destruct (expect dash r3) as [r3'|] eqn:E3; [|discriminate].
  destruct (span_decimals_spec r3') as [Hs Hd].
  destruct (span_decimals r3') as [[|c run] rest] eqn:Hspan; [discriminate|].
  intros H; inversion H; subst; clear H.
  apply take_decimals_some in H1 as (-> & ? & ?).
  apply take_decimals_some in H2 as (-> & ? & ?).
  apply take_decimals_some in H3 as (-> & ? & ?).
  apply expect_some in E1, E2, E3. subst.
  exists rest. cbn [fst snd] in *.
  repeat split; auto. discriminate.
Qed.

Lemma match_name_iff n : match_name n <> None <-> matches_pattern n.
Proof.
  split.
  - destruct (match_name n) as [[[[y m] d] r]|] eqn:H; [|congruence].
    intros _. destruct (match_name_some _ H)
      as (rest & Hn & Hy & Hm & Hd & Hr & Dy & Dm & Dd & Dr).
    exists y, m, d, r, rest. rewrite !forallb_app, Dy, Dm, Dd, Dr.
    repeat split; auto.
  - intros (y & m & d & r & rest & -> & Hy & Hm & Hd & Hr & Hall).
    rewrite !forallb_app, !andb_true_iff in Hall.
    destruct Hall as (Dy & Dm & Dd & Dr).
    unfold match_name.
    rewrite (proj2 (take_decimals_some 4 _ y _) (conj eq_refl (conj Hy Dy))).
    change (lit "-" ++ m ++ ?t) with (dash :: m ++ t).
    rewrite (proj2 (expect_some _ _ _) eq_refl).
    rewrite (proj2 (take_decimals_some 2 _ m _) (conj eq_refl (conj Hm Dm))).
    change (lit "-" ++ d ++ ?t) with (dash :: d ++ t).
    rewrite (proj2 (expect_some _ _ _) eq_refl).
    rewrite (proj2 (take_decimals_some 2 _ d _) (conj eq_refl (conj Hd Dd))).
    change (lit "-" ++ r ++ ?t) with (dash :: r ++ t).
    rewrite (proj2 (expect_some _ _ _) eq_refl).
    destruct r as [|c r]; [congruence|].
    cbn [forallb] in Dr. apply andb_true_iff in Dr as [Hc _].
    pose proof (@span_decimals_head c (r ++ rest) Hc) as Hne.
    cbn [app]. destruct (span_decimals (c :: r ++ rest)) as [[|x run] rest'].
    + exfalso. apply Hne. reflexivity.
    + discriminate.
Qed.

End PatternFacts.

(** ** The order of the scan *)

Lemma leb_refl a : leb a a = true.
Proof.
  induction a as [|x a IH]; simpl; [reflexivity|].
  rewrite N.eqb_refl, IH. apply orb_true_r.
Qed.

Lemma leb_total a b : leb a b = false -> leb b a = true.
Proof.
  revert b; induction a as [|x a IH]; intros [|y b]; simpl; try congruence.
  rewrite orb_false_iff, andb_false_iff.
  intros [Hlt [Hne | Hle]]; apply N.ltb_ge in Hlt.
  - apply N.eqb_neq in Hne.
    assert (H : (y <? x)%N = true) by (apply N.ltb_lt; lia).
    rewrite H. reflexivity.
  - rewrite (IH _ Hle), andb_true_r.
    destruct (N.ltb_spec y x); [reflexivity|].
    assert (y = x) by lia. subst. rewrite N.eqb_refl. reflexivity.
Qed.

Lemma leb_trans a b c : leb a b = true -> leb b c = true -> leb a c = true.
Proof.
  revert b c; induction a as [|x a IH]; intros [|y b] [|z c]; simpl;
    try congruence.
  rewrite !orb_true_iff, !andb_true_iff, !N.ltb_lt, !N.eqb_eq.
  intros [H1 | [H1 H1']] [H2 | [H2 H2']]; subst; try (left; lia).
  right. split; [reflexivity | eauto].
Qed.

Lemma leb_antisym a b : leb a b = true -> leb b a = true -> a = b.
Proof.
  revert b; induction a as [|x a IH]; intros [|y b]; simpl; try congruence.
  rewrite !orb_true_iff, !andb_true_iff, !N.ltb_lt, !N.eqb_eq.
  intros [H1 | [H1 H1']] [H2 | [H2 H2']]; subst; try lia.
  f_equal. auto.
Qed.

Lemma insert_desc_perm x l : Permutation (insert_desc x l) (x :: l).
Proof.
  induction l as [|y l IH]; simpl; [reflexivity|].
  destruct (leb (fst y) (fst x)); [reflexivity|].
  rewrite IH. apply perm_swap.
Qed.

Lemma sorted_desc_perm es : Permutation (sorted_desc es) es.
Proof.
  induction es as [|x es IH]; simpl; [reflexivity|].
  rewrite insert_desc_perm, IH. reflexivity.
Qed.

Lemma insert_desc_sorted x l :
  StronglySorted desc l -> StronglySorted desc (insert_desc x l).
Proof.
  induction 1 as [|y l Hs IH Hall]; simpl.
  - repeat constructor.
  - destruct (leb (fst y) (fst x)) eqn:Hle.
    + constructor; [constructor; assumption|].
      constructor; [exact Hle|].
      eapply Forall_impl; [|exact Hall].
      intros z Hz. unfold desc in *. eapply leb_trans; eassumption.
    + constructor; [exact IH|].
      apply (Permutation_Forall (Permutation_sym (insert_desc_perm x l))).
      constructor; [|exact Hall].
      unfold desc. apply leb_total. exact Hle.
Qed.

Lemma sorted_desc_sorted es : StronglySorted desc (sorted_desc es).
Proof.
  induction es as [|x es IH]; simpl; [constructor|].
  apply insert_desc_sorted. exact IH.
Qed.

Lemma filter_sorted {A} (R : A -> A -> Prop) f l :
  StronglySorted R l -> StronglySorted R (filter f l).
Proof.
  induction 1 as [|x l Hs IH Hall]; simpl; [constructor|].
  destruct (f x); [|exact IH].
  constructor; [exact IH|].
  apply Forall_forall. intros y Hy. apply filter_In in Hy as [Hy _].
  rewrite Forall_forall in Hall. auto.
Qed.

Lemma Forall2_in_l {A B} (R : A -> B -> Prop) l l' a :
  Forall2 R l l' -> In a l -> exists b, In b l' /\ R a b.
Proof.
  induction 1 as [|x y l l' Hxy H IH]; simpl; [tauto|].
  intros [->|Hin]; [eauto|].
  destruct (IH Hin) as (b & Hb & Hr). eauto.
Qed.

Lemma Forall2_in_r {A B} (R : A -> B -> Prop) l l' b :
  Forall2 R l l' -> In b l' -> exists a, In a l /\ R a b.
Proof.
  induction 1 as [|x y l l' Hxy H IH]; simpl; [tauto|].
  intros [->|Hin]; [eauto|].
  destruct (IH Hin) as (a & Ha & Hr). eauto.
Qed.

Section ScanClaims.

Context {L : PyLib}.

Lemma scan_returns base :
  loads_all base -> exists log ws, scan_workflow_directories base = (log, Ok ws).
Proof.
  intros H. apply scan_loop_returns.
  intros n children Hin. apply H.
  apply (Permutation_in _ (sorted_desc_perm base)). exact Hin.
Qed.

Lemma scan_records base log ws :
  scan_workflow_directories base = (log, Ok ws) ->
  Forall2 record_of (filter selected (sorted_desc base)) ws.
Proof. apply scan_loop_records. Qed.

Lemma reserved_iff n :
  reserved n = false <-> n <> lit "__pycache__" /\ n <> lit ".git".
Proof.
  unfold reserved. rewrite orb_false_iff, !eqb_neq. tauto.
Qed.

Lemma selected_iff n x :
  selected (n, x) = true
  <-> (exists children, x = Dir children)
      /\ matches_pattern n /\ n <> lit "__pycache__" /\ n <> lit ".git".
Proof.
  unfold selected. cbn [fst snd].
  rewrite !andb_true_iff, negb_true_iff, reserved_iff, <- match_name_iff.
  split.
  - intros [[Hd Hr] Hm]. repeat split; try tauto.
    + destruct x; [discriminate | eauto].
    + destruct (match_name n); congruence.
  - intros ([c ->] & Hm & Hr). repeat split; try tauto.
    destruct (match_name n); congruence.
Qed.

(** C7. The scan returns whenever the loader does for each run directory,
    and the names of the records are then exactly the names of the
    directories of the working directory that read [YYYY-MM-DD-<digits>]
    at their start, the names [__pycache__] and [.git] being left out. *)
Theorem scanner_keeps_matching_directories (base : entries) :
  (loads_all base ->
   exists log ws, scan_workflow_directories base = (log, Ok ws))
  /\ forall log ws,
      scan_workflow_directories base = (log, Ok ws) ->
      forall n,
        In n (List.map name ws)
        <-> exists children,
              In (n, Dir children) base
              /\ matches_pattern n
              /\ n <> lit "__pycache__" /\ n <> lit ".git".
Proof.
  split; [apply scan_returns|].
  intros log ws Hscan n.
  pose proof Hscan as Hrec. apply scan_records in Hrec.
  split.
  - intros Hin. apply in_map_iff in Hin as (w & <- & Hw).
    destruct (Forall2_in_r _ Hrec Hw) as ([n' x] & He & Hn & _).
    apply filter_In in He as [He Hsel]. cbn [fst] in Hn. subst n'.
    apply selected_iff in Hsel as ([c ->] & Hm & Hr).
    exists c. split; [|tauto].
    apply (Permutation_in _ (sorted_desc_perm base)). exact He.
  - intros (c & Hin & Hm & Hr).
    assert (He : In (n, Dir c) (filter selected (sorted_desc base))).
    { apply filter_In. split.
      - apply (Permutation_in _ (Permutation_sym (sorted_desc_perm base))).
        exact Hin.
      - apply selected_iff. eauto. }
    destruct (Forall2_in_l _ Hrec He) as (w & Hw & Hn & _).
    apply in_map_iff. exists w. auto.
Qed.

End ScanClaims.

Lemma sample_base_loads : @loads_all ascii_lib sample_base.
Proof.
  intros n children Hin _.
  repeat (destruct Hin as [Hin|Hin];
          [inversion Hin; subst; vm_compute; eauto|]).
  destruct Hin.
Qed.

(** In the sample directory the rerun of 2024-01-02 is kept and the
    directory of notes is not. *)
Lemma scanner_keeps_matching_directories_witness :
  exists log ws,
    @scan_workflow_directories ascii_lib sample_base = (log, Ok ws)
    /\ In (lit "2024-01-02-5-rerun") (List.map name ws)
    /\ ~ In (lit "notes") (List.map name ws).
Proof.
  destruct (@scanner_keeps_matching_directories ascii_lib sample_base)
    as [Hret Hiff].
  destruct (Hret sample_base_loads) as (log & ws & Hscan).
  exists log, ws. split; [exact Hscan|]. split.
  - apply (Hiff log ws Hscan). eexists. split.
    + right; right; left. reflexivity.
    + split; [|split; discriminate].
      exists (lit "2024"), (lit "01"), (lit "02"), (lit "5"), (lit "-rerun").
      repeat split; discriminate.
  - intros Hin. apply (Hiff log ws Hscan) in Hin as (c & _ & Hm & _).
    apply match_name_iff in Hm. apply Hm. reflexivity.
Defined.

Lemma count_dirs_perm l l' :
  Permutation l l' -> count_dirs l = count_dirs l'.
Proof.
  unfold count_dirs.
  induction 1 as [|x l l' H IH|x y l|l l' l'' H1 IH1 H2 IH2]; simpl.
  - reflexivity.
  - destruct (is_dir (snd x)); simpl; congruence.
  - destruct (is_dir (snd x)), (is_dir (snd y)); reflexivity.
  - congruence.
Qed.

Lemma count_dirs_split subdirs files :
  Forall (fun e => is_dir (snd e) = true) subdirs ->
  Forall (fun e => is_dir (snd e) = false) files ->
  count_dirs (subdirs ++ files) = length subdirs.
Proof.
  unfold count_dirs. intros Hd Hf. rewrite filter_app, length_app.
  induction Hd as [|x l Hx Hd IH]; simpl.
  - induction Hf as [|y l Hy Hf IH]; simpl; [reflexivity|].
    rewrite Hy. exact IH.
  - rewrite Hx. simpl. rewrite IH. reflexivity.
Qed.

Lemma NoDup_fst_inj {A B} (l : list (A * B)) a b b' :
  NoDup (List.map fst l) -> In (a, b) l -> In (a, b') l -> b = b'.
Proof.
  induction l as [|[x y] l IH]; simpl; [tauto|].
  intros Hnd. inversion Hnd as [|? ? Hx Hnd']; subst.
  intros [H1|H1] [H2|H2].
  - congruence.
  - inversion H1; subst. exfalso. apply Hx.
    apply in_map_iff. exists (a, b'). auto.
  - inversion H2; subst. exfalso. apply Hx.
    apply in_map_iff. exists (a, b). auto.
  - eauto.
Qed.

(** C8. For a run directory whose entries are [N] directories and any
    number of files, in any order, the scan holds a record of that name,
    and every record of that name has the job count [N]. *)
Theorem job_count_counts_subdirectories {L : PyLib} (base : entries)
    (log : list pystr) (ws : list workflow) (n : pystr)
    (children subdirs files : entries)
    (Hscan : scan_workflow_directories base = (log, Ok ws))
    (Hnames : NoDup (List.map fst base))
    (Hin : In (n, Dir children) base)
    (Hrun : matches_pattern n /\ n <> lit "__pycache__" /\ n <> lit ".git")
    (Hsplit : Permutation children (subdirs ++ files))
    (Hdirs : Forall (fun e => is_dir (snd e) = true) subdirs)
    (Hfiles : Forall (fun e => is_dir (snd e) = false) files) :
  (exists w, In w ws /\ name w = n)
  /\ forall w, In w ws -> name w = n -> job_count w = length subdirs.
Proof.
  pose proof Hscan as Hrec. apply scan_records in Hrec.
  assert (Hcount : count_dirs children = length subdirs).
  { rewrite (count_dirs_perm Hsplit). apply count_dirs_split; assumption. }
  split.
  - assert (He : In (n, Dir children) (filter selected (sorted_desc base))).
    { apply filter_In. split.
      - apply (Permutation_in _ (Permutation_sym (sorted_desc_perm base))).
        exact Hin.
      - apply selected_iff. eauto. }
    destruct (Forall2_in_l _ Hrec He) as (w & Hw & Hn & _). eauto.
  - intros w Hw Hn.
    destruct (Forall2_in_r _ Hrec Hw) as ([n' x] & He & Hn' & _ & c & Hx & _ & Hj & _).
    cbn [fst snd] in *. subst x. rewrite Hn in Hn'. subst n'.
    apply filter_In in He as [He _].
    apply (Permutation_in _ (sorted_desc_perm base)) in He.
    pose proof (NoDup_fst_inj _ _ _ _ Hnames Hin He) as E.
    inversion E; subst c. congruence.
Qed.

(** The rerun of 2024-01-02 holds two job directories, a summary and a
    sidecar: its job count is 2. *)
Lemma job_count_counts_subdirectories_witness :
  (exists w, In w (match snd (@scan_workflow_directories ascii_lib sample_base)
                   with Ok ws => ws | Raise _ => [] end)
             /\ name w = lit "2024-01-02-5-rerun")
  /\ forall w, In w (match snd (@scan_workflow_directories ascii_lib sample_base)
                     with Ok ws => ws | Raise _ => [] end) ->
       name w = lit "2024-01-02-5-rerun" -> job_count w = 2.
Proof.
  refine (@job_count_counts_subdirectories ascii_lib sample_base [] _
            (lit "2024-01-02-5-rerun") _
            [(lit "job-a", Dir []); (lit "job-b", Dir [(lit "log", Dir [])])]
            [(lit "index.html", File (DecodeError []));
             (metadata_file_name, File (Loads sidecar_actor_unknown))]
            eq_refl _ _ _ _ _ _).
  - repeat constructor; simpl; intuition discriminate.
  - right; right; left. reflexivity.
  - split; [|split; discriminate].
    exists (lit "2024"), (lit "01"), (lit "02"), (lit "5"), (lit "-rerun").
    repeat split; discriminate.
  - apply perm_skip. apply perm_swap.
  - repeat constructor.
  - repeat constructor.
Defined.

(** ** Names and numbers *)

Lemma digit_range c :
  is_ascii_digit c = true -> (0 <= Z.of_N c - 48 <= 9)%Z.
Proof.
  unfold is_ascii_digit. rewrite andb_true_iff, !N.leb_le. lia.
Qed.

(** Two runs of digits of one length compare as their numbers do. *)
Lemma num_from_order : forall s t a b,
  length s = length t ->
  forallb is_ascii_digit s = true -> forallb is_ascii_digit t = true ->
  ((a < b)%Z -> (num_from a s < num_from b t)%Z)
  /\ (a = b -> leb s t = true ->
      (num_from a s <= num_from b t)%Z
      /\ (num_from a s = num_from b t -> s = t)).
Proof.
  induction s as [|x s IH]; intros [|y t] a b Hlen Hs Ht;
    try discriminate Hlen.
  - simpl. split; [auto|]. intros -> _. split; [lia | reflexivity].
  - cbn [forallb] in Hs, Ht. apply andb_true_iff in Hs as [Hx Hs].
    apply andb_true_iff in Ht as [Hy Ht].
    pose proof (digit_range _ Hx). pose proof (digit_range _ Hy).
    injection Hlen as Hlen. cbn [num_from leb].
    split.
    + intros Hab. apply (IH t _ _ Hlen Hs Ht). lia.
    + intros -> Hle.
      apply orb_true_iff in Hle as [Hlt | Heq].
      * apply N.ltb_lt in Hlt.
        assert (Hstrict : (num_from (b * 10 + (Z.of_N x - 48)) s
                           < num_from (b * 10 + (Z.of_N y - 48)) t)%Z).
        { apply (IH t _ _ Hlen Hs Ht). lia. }
        split; lia.
      * apply andb_true_iff in Heq as [Heq Hle]. apply N.eqb_eq in Heq.
        subst y.
        destruct (proj2 (IH t (b * 10 + (Z.of_N x - 48))%Z
                           (b * 10 + (Z.of_N x - 48))%Z Hlen Hs Ht)
                    eq_refl Hle) as [H1 H2].
        split; [exact H1|]. intros E. f_equal. auto.
Qed.

Lemma num_leb s t :
  length s = length t ->
  forallb is_ascii_digit s = true -> forallb is_ascii_digit t = true ->
  leb s t = true ->
  (num s <= num t)%Z /\ (num s = num t -> s = t).
Proof.
  intros Hlen Hs Ht Hle.
  exact (proj2 (num_from_order s t 0 0 Hlen Hs Ht) eq_refl Hle).
Qed.

Lemma num_two_digits s :
  length s = 2 -> forallb is_ascii_digit s = true -> (0 <= num s < 100)%Z.
Proof.
  destruct s as [|x [|y [|z s]]]; try discriminate. intros _ H.
  cbn [forallb] in H. rewrite !andb_true_iff in H. destruct H as (Hx & Hy & _).
  pose proof (digit_range _ Hx). pose proof (digit_range _ Hy).
  unfold num. simpl. lia.
Qed.

(** Texts that start with runs of one length compare by these runs, and
    by what follows when the runs are equal. *)
Lemma leb_app a b x y :
  length a = length b -> leb (a ++ x) (b ++ y) = true ->
  leb a b = true /\ (a = b -> leb x y = true).
Proof.
  revert b; induction a as [|c a IH]; intros [|e b] Hlen;
    try discriminate Hlen.
  - simpl. auto.
  - injection Hlen as Hlen. cbn [app leb].
    intros H. apply orb_true_iff in H as [Hlt | Heq].
    + rewrite Hlt. split; [reflexivity|].
      intros E. inversion E; subst. apply N.ltb_lt in Hlt. lia.
    + apply andb_true_iff in Heq as [Heq Hle].
      destruct (IH b Hlen Hle) as [H1 H2].
      rewrite Heq, H1, orb_true_r. split; [reflexivity|].
      intros E. inversion E; subst. auto.
Qed.

Lemma leb_digits_step a b x y :
  length a = length b ->
  forallb is_ascii_digit a = true -> forallb is_ascii_digit b = true ->
  leb (a ++ x) (b ++ y) = true ->
  (num a < num b)%Z \/ (num a = num b /\ leb x y = true).
Proof.
  intros Hlen Ha Hb Hle.
  destruct (leb_app _ _ _ _ Hlen Hle) as [H1 H2].
  destruct (num_leb _ _ Hlen Ha Hb H1) as [H3 H4].
  destruct (Z.eq_dec (num a) (num b)) as [E|E]; [right | left; lia].
  split; [exact E | auto].
Qed.

Lemma leb_dash x y :
  leb (lit "-" ++ x) (lit "-" ++ y) = true -> leb x y = true.
Proof. intros H. exact H. Qed.

Section OrderFacts.

Context {L : PyLib}.

(** Two names that match, the first not smaller than the second: the
    first is of a later date, or of the same date with a run id that is
    not smaller when the run ids have one length. *)
Lemma desc_names_newest w1 w2 :
  match_name (name w1) = Some (year w1, month w1, day w1, run_id w1) ->
  match_name (name w2) = Some (year w2, month w2, day w2, run_id w2) ->
  names_desc w1 w2 -> newest_first w1 w2.
Proof.
  intros M1 M2 Hle (Ay1 & Am1 & Ad1 & Ar1) (Ay2 & Am2 & Ad2 & Ar2).
  destruct (match_name_some _ M1)
    as (rest1 & N1 & Ly1 & Lm1 & Ld1 & _).
  destruct (match_name_some _ M2)
    as (rest2 & N2 & Ly2 & Lm2 & Ld2 & _).
  unfold names_desc in Hle. rewrite N1, N2 in Hle.
  pose proof (num_two_digits _ Lm1 Am1). pose proof (num_two_digits _ Ld1 Ad1).
  pose proof (num_two_digits _ Lm2 Am2). pose proof (num_two_digits _ Ld2 Ad2).
  unfold date_num.
  destruct (@leb_digits_step (year w2) (year w1) _ _
              ltac:(congruence) Ay2 Ay1 Hle) as [Hy | [Hy Hle1]];
    [split; lia|].
  apply leb_dash in Hle1.
  destruct (@leb_digits_step (month w2) (month w1) _ _
              ltac:(congruence) Am2 Am1 Hle1) as [Hm | [Hm Hle2]];
    [split; lia|].
  apply leb_dash in Hle2.
  destruct (@leb_digits_step (day w2) (day w1) _ _
              ltac:(congruence) Ad2 Ad1 Hle2) as [Hd | [Hd Hle3]];
    [split; lia|].
  apply leb_dash in Hle3.
  split; [lia|]. intros _ Hlen.
  destruct (@leb_digits_step (run_id w2) (run_id w1) _ _
              (eq_sym Hlen) Ar2 Ar1 Hle3) as [Hr | [Hr _]]; lia.
Qed.

Lemma StronglySorted_Forall2 {A B} (R : A -> B -> Prop)
    (P : A -> A -> Prop) (Q : B -> B -> Prop) l l' :
  (forall a b a' b', R a a' -> R b b' -> P a b -> Q a' b') ->
  Forall2 R l l' -> StronglySorted P l -> StronglySorted Q l'.
Proof.
  intros HPQ H. induction H as [|a a' l l' Ha H IH]; intros Hs.
  - constructor.
  - inversion Hs as [|? ? Hs' Hall]; subst.
    constructor; [auto|].
    apply Forall_forall. intros b' Hb'.
    destruct (Forall2_in_r _ H Hb') as (b & Hb & Hr).
    rewrite Forall_forall in Hall. eauto.
Qed.

Lemma StronglySorted_impl {A} (P Q : A -> A -> Prop) (I : A -> Prop) l :
  (forall a b, I a -> I b -> P a b -> Q a b) ->
  Forall I l -> StronglySorted P l -> StronglySorted Q l.
Proof.
  intros HPQ HI Hs. induction Hs as [|a l Hs IH Hall].
  - constructor.
  - inversion HI as [|? ? Ia Il]; subst.
    constructor; [auto|].
    rewrite Forall_forall in *. intros b Hb. auto.
Qed.

End OrderFacts.

(** C3 (as amended). The records come in descending order of their
    names.  For names written with ASCII digits this is the order of the
    dates, newest first, and among the runs of one date the order of
    descending run ids as far as the run ids have the same number of
    digits.  The directories 2024-01-02-5, 2024-01-01-9 and 2024-01-02-3
    come out as 2024-01-02-5, 2024-01-02-3, 2024-01-01-9. *)
Theorem scan_order {L : PyLib} (base : entries) (log : list pystr)
    (ws : list workflow)
    (Hscan : scan_workflow_directories base = (log, Ok ws)) :
  StronglySorted names_desc ws
  /\ StronglySorted newest_first ws
  /\ names_of (scan_workflow_directories three_runs)
     = Some [lit "2024-01-02-5"; lit "2024-01-02-3"; lit "2024-01-01-9"].
Proof.
  pose proof Hscan as Hrec. apply scan_records in Hrec.
  assert (Hnames : StronglySorted names_desc ws).
  { eapply StronglySorted_Forall2;
      [| exact Hrec
       | apply filter_sorted; apply (sorted_desc_sorted base)].
    intros a b a' b' (Ha & _) (Hb & _) Hab.
    unfold names_desc, desc in *. rewrite Ha, Hb. exact Hab. }
  split; [exact Hnames|]. split; [|vm_compute; reflexivity].
  apply StronglySorted_impl
    with (P := names_desc)
         (I := fun w => match_name (name w)
                        = Some (year w, month w, day w, run_id w)).
  - intros a b Ha Hb. apply desc_names_newest; assumption.
  - apply Forall_forall. intros w Hw.
    destruct (Forall2_in_r _ Hrec Hw) as (e & _ & Hn & Hm & _).
    rewrite Hn. exact Hm.
  - exact Hnames.
Qed.

(** The three directories of the ordering example. *)
Lemma scan_order_witness :
  exists ws,
    @scan_workflow_directories ascii_lib three_runs = ([], Ok ws)
    /\ StronglySorted names_desc ws /\ StronglySorted newest_first ws.
Proof.
  eexists. split; [vm_compute; reflexivity|].
  destruct (@scan_order ascii_lib three_runs [] _ eq_refl) as (H1 & H2 & _).
  split; [exact H1 | exact H2].
Defined.

(** C3, the claim as stated fails: of two runs of one day the run 9 is
    listed before the run 10, the text "9" being the greater one. *)
Lemma run_id_order_counterexample :
  exists w1 w2,
    @scan_workflow_directories ascii_lib two_runs_one_day = ([], Ok [w1; w2])
    /\ name w1 = lit "2024-01-02-9" /\ name w2 = lit "2024-01-02-10"
    /\ ~ newest_first_by_run_id w1 w2.
Proof.
  do 2 eexists. split; [vm_compute; reflexivity|].
  split; [reflexivity|]. split; [reflexivity|].
  intros [_ H]. specialize (H eq_refl). vm_compute in H. apply H. reflexivity.
Qed.

(** ** Replacement templates *)

Lemma backslash_free_app a b :
  backslash_free (a ++ b) = backslash_free a && backslash_free b.
Proof. apply forallb_app. Qed.

(** A text without a backslash stands for itself in a template. *)
Lemma expand_fuel_literal groups rest : forall s fuel,
  backslash_free s = true ->
  Re.expand_fuel (length s + fuel) groups (s ++ rest)
  = (r <- Re.expand_fuel fuel groups rest ;; Ok (s ++ r)).
Proof.
  induction s as [|c s IH]; intros fuel Hs.
  - simpl. destruct (Re.expand_fuel fuel groups rest); reflexivity.
  - cbn [backslash_free forallb] in Hs. apply andb_true_iff in Hs as [Hc Hs].
    cbn [length Nat.add app Re.expand_fuel]. rewrite Hc.
    fold (backslash_free s) in Hs. rewrite (IH fuel Hs).
    destruct (Re.expand_fuel fuel groups rest); reflexivity.
Qed.

Lemma expand_literal groups s :
  backslash_free s = true -> Re.expand groups s = Ok s.
Proof.
  intros Hs. unfold Re.expand.
  replace (S (length s)) with (length s + 1) by lia.
  rewrite <- (app_nil_r s) at 2.
  rewrite (expand_fuel_literal groups [] s 1 Hs). simpl.
  rewrite app_nil_r. reflexivity.
Qed.

(** The template [\1 body \3], whose body has no backslash and does not
    start with a digit, gives group 1, the body and group 3. *)
Lemma expand_1_body_3 whole g1 g2 g3 body :
  backslash_free body = true ->
  match body with c :: _ => is_ascii_digit c = false | [] => True end ->
  Re.expand [whole; g1; g2; g3] (lit "\1" ++ body ++ lit "\3")
  = Ok (g1 ++ body ++ g3).
Proof.
  intros Hb Hhd. unfold Re.expand.
  replace (S (length (lit "\1" ++ body ++ lit "\3")))
    with (S (length body + 4))
    by (rewrite !length_app; simpl; lia).
  assert (Hstep : Re.expand_fuel (S (length body + 4)) [whole; g1; g2; g3]
                    (lit "\1" ++ body ++ lit "\3")
                  = (r <- Re.expand_fuel (length body + 4)
                            [whole; g1; g2; g3] (body ++ lit "\3") ;;
                     Ok (g1 ++ r))).
  { change (lit "\1" ++ body ++ lit "\3")
      with (92%N :: 49%N :: body ++ lit "\3").
    cbn [Re.expand_fuel]. cbn.
    destruct body as [|c body']; [reflexivity|].
    cbn [app]. rewrite Hhd. reflexivity. }
  rewrite Hstep, (expand_fuel_literal _ _ body 4 Hb).
  cbn. change (Pos.to_nat 3) with 3. cbn. rewrite app_nil_r. reflexivity.
Qed.

(** ** Searching a text *)

Lemma starts_with_app p s : starts_with p (p ++ s) = true.
Proof.
  induction p as [|c p IH]; simpl; [reflexivity|].
  rewrite N.eqb_refl, IH. reflexivity.
Qed.

Lemma starts_with_spec p s :
  starts_with p s = true -> s = p ++ skipn (length p) s.
Proof.
  revert s; induction p as [|c p IH]; intros [|x s]; simpl;
    try discriminate; try reflexivity.
  rewrite andb_true_iff, N.eqb_eq. intros [-> H].
  f_equal. apply IH. exact H.
Qed.


Lemma split_on_sound p : forall s a b,
  split_on p s = Some (a, b) -> s = a ++ p ++ b.
Proof.
  induction s as [|c s IH]; intros a b; cbn [split_on].
  - destruct (starts_with p []) eqn:Hp; [|discriminate].
    intros H; inversion H; subst. apply (starts_with_spec _ _ Hp).
  - destruct (starts_with p (c :: s)) eqn:Hp.
    + intros H; inversion H; subst. apply (starts_with_spec _ _ Hp).
    + destruct (split_on p s) as [[a' b']|] eqn:Hs; [|discriminate].
      intros H; inversion H; subst. cbn [app]. f_equal. apply IH.
      reflexivity.
Qed.

Lemma split_on_here p s : split_on p (p ++ s) = Some ([], s).
Proof.
  destruct (p ++ s) as [|c t] eqn:E; cbn [split_on]; rewrite <- E;
    rewrite starts_with_app, skipn_app, Nat.sub_diag, skipn_all;
    reflexivity.
Qed.


Lemma contains_tail p : forall a b,
  contains p (a ++ b) = false -> contains p b = false.
Proof.
  unfold contains. induction a as [|c a IH]; intros b H; [exact H|].
  cbn [app split_on] in H.
  destruct (starts_with p (c :: a ++ b)); [discriminate|].
  apply IH. destruct (split_on p (a ++ b)) as [[x y]|]; [discriminate|].
  reflexivity.
Qed.

Lemma contains_false p s : contains p s = false -> split_on p s = None.
Proof.
  unfold contains. destruct (split_on p s); [discriminate | reflexivity].
Qed.

Lemma split_on_length p s a b :
  split_on p s = Some (a, b) -> length b + length p + length a = length s.
Proof.
  intros H. rewrite (split_on_sound _ _ H), !length_app. lia.
Qed.

(** ** The substitutions *)

Lemma replace_fuel_none fuel old new s :
  contains old s = false -> replace_fuel fuel old new s = s.
Proof.
  intros H. destruct fuel; [reflexivity|].
  cbn [replace_fuel]. rewrite (contains_false _ _ H). reflexivity.
Qed.

(** One occurrence of [old]: it is replaced and the rest is kept. *)
Lemma replace_once old new s pre rest :
  old <> [] ->
  split_on old s = Some (pre, rest) -> contains old rest = false ->
  replace old new s = pre ++ new ++ rest.
Proof.
  intros Hne Hs Hrest. destruct old as [|c old]; [congruence|].
  unfold replace. cbn [replace_fuel]. rewrite Hs.
  rewrite (replace_fuel_none _ _ _ _ Hrest). reflexivity.
Qed.

Lemma replace_none old new s :
  old <> [] -> contains old s = false -> replace old new s = s.
Proof.
  intros Hne H. destruct old as [|c old]; [congruence|].
  unfold replace. apply replace_fuel_none. exact H.
Qed.







(** One match of the helper pattern. *)
Lemma sub4_once A B C D tmpl content pre g1 g2 g3 post r0 r :
  Re.expand Re.no_groups tmpl = Ok r0 ->
  Re.find4 A B C D content = Some (pre, g1, g2, g3, post) ->
  Re.expand [g1 ++ g2 ++ g3; g1; g2; g3] tmpl = Ok r ->
  Re.find4 A B C D post = None ->
  Re.sub4 A B C D tmpl content = Ok (pre ++ r ++ post).
Proof.
  intros H0 Hf Hr Hpost. unfold Re.sub4. rewrite H0. cbn [bind].
  cbn [Re.sub4_fuel]. rewrite Hf, Hr. cbn [bind].
  destruct (length content); cbn [Re.sub4_fuel]; [reflexivity|].
  rewrite Hpost. reflexivity.
Qed.

(** ** The renderer *)

Section RenderFacts.

Context {L : PyLib}.

Lemma backslash_free_join sep parts :
  backslash_free sep = true ->
  Forall (fun p => backslash_free p = true) parts ->
  backslash_free (join sep parts) = true.
Proof.
  intros Hsep. induction 1 as [|p parts Hp Hall IH]; [reflexivity|].
  cbn [join]. destruct parts as [|q parts]; [exact Hp|].
  rewrite !backslash_free_app, Hp, Hsep, IH. reflexivity.
Qed.


Lemma plain_entry_name w :
  backslash_free (js_entry w) = true -> backslash_free (name w) = true.
Proof.
  unfold js_entry. rewrite !backslash_free_app, !andb_true_iff. tauto.
Qed.



Lemma plain_index_list ws :
  plain_records ws -> backslash_free (index_list_js ws) = true.
Proof.
  intros H. unfold index_list_js. apply backslash_free_join; [reflexivity|].
  apply Forall_map. apply Forall_forall. intros w Hw.
  apply filter_In in Hw as [Hw _].
  unfold plain_records in H. rewrite Forall_forall in H.
  rewrite !backslash_free_app, (plain_entry_name _ (H w Hw)). reflexivity.
Qed.

Lemma plain_check_body ws :
  plain_records ws -> backslash_free (check_body ws) = true.
Proof.
  intros H. unfold check_body.
  rewrite !backslash_free_app, (plain_index_list H). reflexivity.
Qed.

Lemma check_for_index_replacement_eq ws :
  check_for_index_replacement ws = lit "\1" ++ check_body ws ++ lit "\3".
Proof.
  unfold check_for_index_replacement, check_body. rewrite <- !app_assoc. reflexivity.
Qed.


Lemma expand_check ws whole g1 g2 g3 :
  plain_records ws ->
  Re.expand [whole; g1; g2; g3] (check_for_index_replacement ws)
  = Ok (g1 ++ check_body ws ++ g3).
Proof.
  intros H. rewrite check_for_index_replacement_eq.
  apply expand_1_body_3; [apply plain_check_body; exact H|].
  reflexivity.
Qed.




End RenderFacts.


(** C9, the failure. The template exists and holds a data array, one
    record has a backslash in its actor: the replacement template is
    refused and the renderer raises, where the claim has it write the
    file and return [True]. *)
Theorem unescaped_backslash_raises :
  @update_index_html ascii_lib [run_of_domain_user] clock1 (Some fresh_page)
  = ([], Raise ReError).
Proof. vm_compute. reflexivity. Qed.

(** The same records without the backslash are written. *)
Example plain_records_are_written :
  exists c,
    @update_index_html ascii_lib sample_records clock1 (Some fresh_page)
    = ([], Ok (true, Some c)).
Proof. eexists. vm_compute. reflexivity. Qed.

Lemma sample_records_plain : @plain_records ascii_lib sample_records.
Proof. repeat constructor. Qed.


Lemma find4_sound A B C D s pre g1 g2 g3 post :
  Re.find4 A B C D s = Some (pre, g1, g2, g3, post) ->
  s = pre ++ (g1 ++ g2 ++ g3) ++ post.
Proof.
  unfold Re.find4.
  destruct (split_on A s) as [[p r1]|] eqn:H1; [|discriminate].
  destruct (split_on B r1) as [[x r2]|] eqn:H2; [|discriminate].
  destruct (split_on C r2) as [[y r3]|] eqn:H3; [|discriminate].
  destruct (split_on D r3) as [[z q]|] eqn:H4; [|discriminate].
  intros H; inversion H; subst.
  rewrite (split_on_sound _ _ H1), (split_on_sound _ _ H2),
    (split_on_sound _ _ H3), (split_on_sound _ _ H4).
  rewrite <- !app_assoc. reflexivity.
Qed.


(** ** The fuel is never used up *)

(** Each of the functions below reads at least one character at every
    step, so that any fuel above the length of the text gives the same
    result: the result of the Python loop. *)

Lemma split_on_shorter p s a b :
  p <> [] -> split_on p s = Some (a, b) -> length b < length s.
Proof.
  intros Hp H. pose proof (split_on_length _ _ H).
  destruct p; [congruence | simpl in *; lia].
Qed.

Lemma replace_fuel_enough old new : old <> [] ->
  forall f1 f2 s, length s < f1 -> length s < f2 ->
  replace_fuel f1 old new s = replace_fuel f2 old new s.
Proof.
  intros Hold. induction f1 as [|f1 IH]; intros [|f2] s H1 H2; try lia.
  cbn [replace_fuel].
  destruct (split_on old s) as [[a b]|] eqn:Hs; [|reflexivity].
  pose proof (split_on_shorter _ Hold Hs).
  rewrite (IH f2 b) by lia. reflexivity.
Qed.

Lemma sub_lazy_fuel_enough P Q tmpl : P <> [] ->
  forall f1 f2 s, length s < f1 -> length s < f2 ->
  Re.sub_lazy_fuel f1 P Q tmpl s = Re.sub_lazy_fuel f2 P Q tmpl s.
Proof.
  intros HP. induction f1 as [|f1 IH]; intros [|f2] s H1 H2; try lia.
  cbn [Re.sub_lazy_fuel].
  destruct (split_on P s) as [[pre rest]|] eqn:Hs; [|reflexivity].
  destruct (split_on Q rest) as [[body post]|] eqn:Hq; [|reflexivity].
  pose proof (split_on_shorter _ HP Hs).
  pose proof (split_on_length _ _ Hq).
  rewrite (IH f2 post) by lia. reflexivity.
Qed.



Lemma expand_fuel_enough groups :
  forall f1 f2 t, length t < f1 -> length t < f2 ->
  Re.expand_fuel f1 groups t = Re.expand_fuel f2 groups t.
Proof.
  induction f1 as [|f1 IH]; intros [|f2] t H1 H2; try lia.
  assert (IH' : forall rest, length rest < length t ->
            Re.expand_fuel f1 groups rest = Re.expand_fuel f2 groups rest)
    by (intros; apply IH; lia).
  clear IH. cbn [Re.expand_fuel]. cbv zeta.
  destruct t as [|c t1]; [reflexivity|].
  cbn [length] in IH'.
  repeat match goal with
         | |- context [if ?b then _ else _] => destruct b eqn:?
         | |- context [match ?x with _ => _ end] =>
             lazymatch x with
             | Re.expand_fuel _ _ _ => fail
             | _ => destruct x eqn:?
             end
         end;
    try reflexivity;
    repeat match goal with
           | H : split_on _ _ = Some _ |- _ => apply split_on_length in H
           end;
    rewrite IH' by (cbn [length] in *; lia); reflexivity.
Qed.

Section StampFuel.

Context {L : PyLib}.

Lemma strip_prefix_length p : forall s r,
  strip_prefix p s = Some r -> length r + length p = length s.
Proof.
  induction p as [|x p IH]; intros [|y s] r; simpl; try discriminate.
  - intros H; inversion H; subst. simpl. lia.
  - intros H; inversion H; subst. simpl. lia.
  - destruct (N.eqb x y); [|discriminate].
    intros H. specialize (IH _ _ H). lia.
Qed.

Lemma decimals_then_length n sep s r :
  decimals_then n sep s = Some r -> length r + length sep + n = length s.
Proof.
  unfold decimals_then.
  destruct (take_decimals n s) as [[d r']|] eqn:H; [|discriminate].
  apply take_decimals_some in H as (-> & Hn & _).
  intros Hs. apply strip_prefix_length in Hs.
  rewrite length_app. lia.
Qed.

Lemma stamp_match_shorter s rest :
  stamp_match s = Some rest -> length rest < length s.
Proof.
  unfold stamp_match.
  destruct (strip_prefix stamp_head s) as [r0|] eqn:H0; [|discriminate].
  destruct (decimals_then 4 (lit "-") r0) as [r1|] eqn:H1; [|discriminate].
  destruct (decimals_then 2 (lit "-") r1) as [r2|] eqn:H2; [|discriminate].
  destruct (decimals_then 2 (lit " ") r2) as [r3|] eqn:H3; [|discriminate].
  destruct (decimals_then 2 (lit ":") r3) as [r4|] eqn:H4; [|discriminate].
  destruct (decimals_then 2 (lit ":") r4) as [r5|] eqn:H5; [|discriminate].
  intros H6.
  apply strip_prefix_length in H0.
  apply decimals_then_length in H1, H2, H3, H4, H5, H6.
  lia.
Qed.

Lemma stamp_sub_fuel_enough tmpl :
  forall f1 f2 s, length s < f1 -> length s < f2 ->
  stamp_sub_fuel f1 tmpl s = stamp_sub_fuel f2 tmpl s.
Proof.
  induction f1 as [|f1 IH]; intros [|f2] s H1 H2; try lia.
  cbn [stamp_sub_fuel].
  destruct (stamp_match s) as [rest|] eqn:Hm.
  - pose proof (stamp_match_shorter _ Hm).
    rewrite (IH f2 rest) by lia. reflexivity.
  - destruct s as [|c s]; [reflexivity|].
    cbn [length] in *. rewrite (IH f2 s) by lia. reflexivity.
Qed.

End StampFuel.

(** ** The searches find the leftmost and shortest match *)

Lemma split_on_complete p : forall a b,
  exists a' b', split_on p (a ++ p ++ b) = Some (a', b').
Proof.
  induction a as [|c a IH]; intros b.
  - cbn [app]. rewrite split_on_here. eauto.
  - cbn [app split_on].
    destruct (starts_with p (c :: a ++ p ++ b)); [eauto|].
    destruct (IH b) as (a' & b' & ->). eauto.
Qed.

(** No occurrence of [p] starts before the one [split_on] returns. *)
Lemma split_on_leftmost p : forall s a b a' b',
  split_on p s = Some (a, b) -> s = a' ++ p ++ b' -> length a <= length a'.
Proof.
  induction s as [|c s IH]; intros a b a' b' H E.
  - cbn [split_on] in H. destruct (starts_with p []); [|discriminate].
    inversion H; subst. simpl. lia.
  - cbn [split_on] in H. destruct a' as [|x a'].
    + cbn [app] in E. rewrite E, starts_with_app in H.
      inversion H; subst. simpl. lia.
    + destruct (starts_with p (c :: s)).
      * inversion H; subst. simpl. lia.
      * destruct (split_on p s) as [[a0 b0]|] eqn:Hs; [|discriminate].
        inversion H; subst. cbn [app] in E. inversion E; subst.
        cbn [length]. specialize (IH a0 b a' b' eq_refl eq_refl). lia.
Qed.

Lemma contains_suffix p : forall x y,
  contains p y = true -> contains p (x ++ y) = true.
Proof.
  intros x y H. destruct (contains p (x ++ y)) eqn:E; [reflexivity|].
  rewrite (contains_tail _ _ _ E) in H. discriminate.
Qed.

Lemma contains_iff p s :
  contains p s = true <-> exists a b, s = a ++ p ++ b.
Proof.
  unfold contains. split.
  - destruct (split_on p s) as [[a b]|] eqn:H; [|discriminate].
    intros _. exists a, b. apply (split_on_sound _ _ H).
  - intros (a & b & ->).
    destruct (split_on_complete p a b) as (a' & b' & ->). reflexivity.
Qed.

(** What follows a later occurrence also follows the first one. *)
Lemma split_on_rest p s a b a' b' :
  split_on p s = Some (a, b) -> s = a' ++ p ++ b' ->
  exists x, b = x ++ b'.
Proof.
  intros H E. pose proof (@split_on_leftmost p s a b a' b' H E) as Hlen.
  pose proof (split_on_sound _ _ H) as E'.
  exists (firstn (length a' - length a) b).
  rewrite <- (firstn_skipn (length a' - length a) b) at 1. f_equal.
  assert (Hb : b = skipn (length a + length p) s).
  { rewrite E', !app_assoc, <- length_app, skipn_app, skipn_all, Nat.sub_diag.
    reflexivity. }
  assert (Hb' : b' = skipn (length a' + length p) s).
  { rewrite E, !app_assoc, <- length_app, skipn_app, skipn_all, Nat.sub_diag.
    reflexivity. }
  rewrite Hb' at 1. rewrite Hb at 1. rewrite skipn_skipn. f_equal. lia.
Qed.

(** The array pattern matches somewhere in [s] exactly when [s] holds the
    declaration and, after it, the closing text. *)
Lemma search_lazy_iff P Q s :
  Re.search_lazy P Q s = true
  <-> exists pre body post, s = pre ++ P ++ body ++ Q ++ post.
Proof.
  unfold Re.search_lazy. split.
  - destruct (split_on P s) as [[a b]|] eqn:H; [|discriminate].
    intros Hq. apply contains_iff in Hq as (body & post & ->).
    exists a, body, post. apply (split_on_sound _ _ H).
  - intros (pre & body & post & E).
    destruct (split_on_complete P pre (body ++ Q ++ post)) as (a & b & H).
    rewrite <- E in H. rewrite H.
    destruct (@split_on_rest P s a b pre (body ++ Q ++ post) H E) as [x ->].
    apply contains_suffix. apply contains_iff. eauto.
Qed.

(** * Further properties *)

(** ** The scan does not depend on the order of the listing *)

Lemma desc_antisym (l : entries) a b :
  NoDup (List.map fst l) -> In a l -> In b l ->
  desc a b -> desc b a -> a = b.
Proof.
  intros Hnd Ha Hb Hab Hba. destruct a as [n x], b as [n' x'].
  unfold desc in *. cbn [fst] in *.
  assert (n = n') by (apply leb_antisym; assumption). subst n'.
  f_equal. exact (NoDup_fst_inj _ _ _ _ Hnd Ha Hb).
Qed.

(** Two descending listings of the same entries, the names distinct, are
    equal. *)
Lemma sorted_unique : forall l l' : entries,
  NoDup (List.map fst l) ->
  StronglySorted desc l -> StronglySorted desc l' -> Permutation l l' ->
  l = l'.
Proof.
  induction l as [|a l IH]; intros l' Hnd Hs Hs' Hp.
  - apply Permutation_nil in Hp. subst. reflexivity.
  - destruct l' as [|a' l'];
      [apply Permutation_sym, Permutation_nil in Hp; discriminate|].
    inversion Hs as [|? ? Hsl Hal]; subst.
    inversion Hs' as [|? ? Hsl' Hal']; subst.
    rewrite Forall_forall in Hal, Hal'.
    assert (Ha : In a (a' :: l')) by (apply (Permutation_in _ Hp); left; auto).
    assert (Ha' : In a' (a :: l)).
    { apply (Permutation_in _ (Permutation_sym Hp)). left. auto. }
    assert (E : a = a').
    { destruct Ha as [E | Ha]; [auto|].
      destruct Ha' as [E | Ha']; [auto|].
      apply (desc_antisym (a :: l)); auto.
      - left. reflexivity.
      - right. exact Ha'. }
    subst a'. f_equal. apply IH; auto.
    + cbn [List.map] in Hnd. inversion Hnd. assumption.
    + apply (Permutation_cons_inv Hp).
Qed.

Lemma sorted_desc_order_free (base base' : entries) :
  NoDup (List.map fst base) -> Permutation base base' ->
  sorted_desc base = sorted_desc base'.
Proof.
  intros Hnd Hp. apply sorted_unique.
  - apply (Permutation_NoDup (l := List.map fst base)); [|exact Hnd].
    apply Permutation_map. apply Permutation_sym. apply sorted_desc_perm.
  - apply sorted_desc_sorted.
  - apply sorted_desc_sorted.
  - rewrite sorted_desc_perm, Hp. symmetry. apply sorted_desc_perm.
Qed.

(** X1. Whatever the order in which the directory is listed, the scan
    gives the same records and prints the same warnings, the names of a
    directory being distinct. *)
Theorem scan_order_free {L : PyLib} (base base' : entries)
    (Hnames : NoDup (List.map fst base))
    (Hperm : Permutation base base') :
  scan_workflow_directories base = scan_workflow_directories base'.
Proof.
  unfold scan_workflow_directories.
  rewrite (sorted_desc_order_free Hnames Hperm). reflexivity.
Qed.

(** The three directories of the ordering example, listed in two orders. *)
Lemma scan_order_free_witness :
  @scan_workflow_directories ascii_lib three_runs
  = @scan_workflow_directories ascii_lib (rev three_runs).
Proof.
  apply (@scan_order_free ascii_lib three_runs (rev three_runs)).
  - repeat constructor; simpl; intuition discriminate.
  - apply Permutation_rev.
Defined.

(** ** Which sidecars the loader rejects *)

Lemma get_non_object v key default :
  is_object v = false -> get v key default = Raise AttributeError.
Proof. destruct v; simpl; congruence. Qed.

Lemma strip_non_string v :
  is_string v = false -> strip_value v = Raise AttributeError.
Proof. destruct v; simpl; congruence. Qed.

Lemma extract_metadata_raises data :
  well_shaped data = false -> extract_metadata data = Raise AttributeError.
Proof.
  destruct data as [| | | | |l|d]; try reflexivity.
  cbn [well_shaped]. intros H. unfold extract_metadata.
  rewrite !get_dict. cbn [bind].
  destruct (is_object (field (lit "workflow") d (JDict []))) eqn:Hw;
    [|rewrite (get_non_object _ _ _ Hw); reflexivity].
  rewrite (is_object_items _ Hw), get_dict. cbn [bind].
  destruct (is_object (field (lit "inputs") d (JDict []))) eqn:Hi;
    [|rewrite (get_non_object _ _ _ Hi); reflexivity].
  rewrite (is_object_items _ Hi), get_dict. cbn [bind].
  destruct (is_object (field (lit "execution") d (JDict []))) eqn:He;
    [|rewrite (get_non_object _ _ _ He); reflexivity].
  rewrite (is_object_items _ He), !get_dict. cbn [bind].
  cbn [andb] in H.
  destruct (is_string (field (lit "started_at")
              (items (field (lit "execution") d (JDict []))) (JStr [])))
    eqn:Hs; [|rewrite (strip_non_string _ Hs); reflexivity].
  destruct (is_string_strip _ Hs) as [s ->]. cbn [bind].
  cbn [andb] in H. apply orb_false_iff in H as [Ht Hc].
  rewrite Ht. cbn [negb]. rewrite (strip_non_string _ Hc). reflexivity.
Qed.

(** X2. The loader turns a sidecar that parses into a record exactly when
    the sidecar is well shaped; any other sidecar makes it raise an
    [AttributeError], which no [except] clause of the script catches. *)
Theorem loader_raises_iff_ill_shaped (dir_name : pystr) (dir : entries)
    (data : json)
    (Hfile : child metadata_file_name dir = Some (File (Loads data))) :
  (well_shaped data = true ->
   exists md, load_workflow_metadata dir_name dir = ([], Ok md))
  /\ (well_shaped data = false ->
      load_workflow_metadata dir_name dir = ([], Raise AttributeError)).
Proof.
  unfold load_workflow_metadata. rewrite Hfile. split; intros H.
  - destruct (extract_metadata_returns _ H) as [md ->]. eauto.
  - rewrite (extract_metadata_raises _ H). reflexivity.
Qed.

(** A sidecar with a start only, and one whose [execution] is a number. *)
Lemma loader_raises_iff_ill_shaped_witness :
  (exists md, load_workflow_metadata sample_run
                (with_sidecar sidecar_started_only) = ([], Ok md))
  /\ load_workflow_metadata sample_run
       (with_sidecar (JDict [(lit "execution", JInt 5)]))
     = ([], Raise AttributeError).
Proof.
  split.
  - exact (proj1 (@loader_raises_iff_ill_shaped sample_run
                    (with_sidecar sidecar_started_only) _ eq_refl) eq_refl).
  - exact (proj2 (@loader_raises_iff_ill_shaped sample_run
                    (with_sidecar (JDict [(lit "execution", JInt 5)])) _
                    eq_refl) eq_refl).
Defined.

(** ** When the scan completes *)

Lemma load_raise_cases dir_name dir e :
  snd (load_workflow_metadata dir_name dir) = Raise e <-> sidecar_raises dir e.
Proof.
  unfold load_workflow_metadata, sidecar_raises.
  destruct (child metadata_file_name dir) as [[[data|msg|f]|c]|]; cbn [snd].
  - destruct (well_shaped data) eqn:H.
    + destruct (extract_metadata_returns _ H) as [md ->].
      split; [discriminate|].
      intros [(c & E & _) | [(f & E & _) | (d & E & Hd & _)]];
        try discriminate E.
      inversion E; subst. congruence.
    + rewrite (extract_metadata_raises _ H). split.
      * intros E; inversion E; subst. right. right. eauto.
      * intros [(c & E & _) | [(f & E & _) | (d & _ & _ & ->)]];
          try discriminate E. reflexivity.
  - split; [discriminate|].
    intros [(c & E & _) | [(f & E & _) | (d & E & _)]]; discriminate E.
  - split.
    + intros E; inversion E; subst. right. left. eauto.
    + intros [(c & E & _) | [(f' & E & ->) | (d & E & _)]];
        try discriminate E.
      inversion E; subst. reflexivity.
  - split.
    + intros E; inversion E; subst. left. eauto.
    + intros [(c' & _ & ->) | [(f & E & _) | (d & E & _)]];
        try discriminate E. reflexivity.
  - split; [discriminate|].
    intros [(c & E & _) | [(f & E & _) | (d & E & _)]]; discriminate E.
Qed.

Section ScanCompletes.

Context {L : PyLib}.

Lemma scan_loop_ok_loads : forall es log ws,
  scan_loop es = (log, Ok ws) -> loads_all es.
Proof.
  induction es as [|[n x] es IH]; intros log ws H n' c' Hin Hsel;
    [destruct Hin|].
  cbn [scan_loop] in H.
  assert (Htail : forall log ws, scan_loop es = (log, Ok ws) ->
            In (n', Dir c') es ->
            exists md, snd (load_workflow_metadata n' c') = Ok md).
  { intros l w Hs Hi. exact (IH l w Hs n' c' Hi Hsel). }
  destruct x as [c|children].
  - destruct Hin as [E|Hin]; [discriminate E | eauto].
  - destruct (reserved n) eqn:Hr; cbn [negb] in H.
    + destruct Hin as [E|Hin]; [|eauto].
      inversion E; subst. unfold selected in Hsel. cbn in Hsel.
      rewrite Hr in Hsel. discriminate.
    + destruct (match_name n) as [[[[y m] d] r]|] eqn:Hm.
      * destruct (load_workflow_metadata n children) as [l [md|e]] eqn:Hl;
          [|discriminate].
        destruct (scan_loop es) as [log' [ws'|e]] eqn:Hs; [|discriminate].
        destruct Hin as [E|Hin]; [|eauto].
        inversion E; subst. rewrite Hl. cbn. eauto.
      * destruct Hin as [E|Hin]; [|eauto].
        inversion E; subst. unfold selected in Hsel. cbn in Hsel.
        rewrite Hr, Hm in Hsel. discriminate.
Qed.

Lemma scan_loop_raise : forall es log e,
  scan_loop es = (log, Raise e) ->
  exists n children,
    In (n, Dir children) es /\ selected (n, Dir children) = true
    /\ snd (load_workflow_metadata n children) = Raise e.
Proof.
  induction es as [|[n x] es IH]; intros log e H; [discriminate|].
  cbn [scan_loop] in H.
  assert (Htail : forall log, scan_loop es = (log, Raise e) ->
            exists n' c',
              In (n', Dir c') ((n, x) :: es)
              /\ selected (n', Dir c') = true
              /\ snd (load_workflow_metadata n' c') = Raise e).
  { intros l Hs. destruct (IH l e Hs) as (n' & c' & Hi & Hrest).
    exists n', c'. split; [right; exact Hi | exact Hrest]. }
  destruct x as [c|children]; [eauto|].
  destruct (reserved n) eqn:Hr; cbn [negb] in H; [eauto|].
  destruct (match_name n) as [[[[y m] d] r]|] eqn:Hm; [|eauto].
  destruct (load_workflow_metadata n children) as [l [md|e']] eqn:Hl.
  - destruct (scan_loop es) as [log' [ws'|e']] eqn:Hs; [discriminate|].
    inversion H; subst. eauto.
  - inversion H; subst. exists n, children.
    split; [left; reflexivity|]. split.
    + unfold selected. cbn. rewrite Hr, Hm. reflexivity.
    + rewrite Hl. reflexivity.
Qed.

End ScanCompletes.

(** X3. The scan returns its records exactly when the loader returns for
    every run directory, that is when no run directory has a sidecar the
    loader raises on.  Otherwise it raises what the loader raised for one
    of them and gives no record at all: an [IsADirectoryError] for a
    sidecar that is a directory, the error of [open] or [json.load] for a
    file that cannot be read (other than a [JSONDecodeError]), an
    [AttributeError] for a parsed value of the wrong shape. *)
Theorem scan_completes_iff {L : PyLib} (base : entries) :
  ((exists log ws, scan_workflow_directories base = (log, Ok ws))
   <-> loads_all base)
  /\ (loads_all base
      <-> forall n children e,
            In (n, Dir children) base -> selected (n, Dir children) = true ->
            ~ sidecar_raises children e)
  /\ forall log e,
      scan_workflow_directories base = (log, Raise e) ->
      exists n children,
        In (n, Dir children) base /\ selected (n, Dir children) = true
        /\ snd (load_workflow_metadata n children) = Raise e
        /\ sidecar_raises children e.
Proof.
  split; [split|split; [split|]].
  - intros (log & ws & H) n c Hin. apply (scan_loop_ok_loads _ H).
    apply (Permutation_in _ (Permutation_sym (sorted_desc_perm base))).
    exact Hin.
  - apply scan_returns.
  - intros Hall n c e Hin Hsel Hr.
    apply (load_raise_cases n) in Hr.
    destruct (Hall n c Hin Hsel) as [md Hmd]. congruence.
  - intros Hnone n c Hin Hsel.
    destruct (snd (load_workflow_metadata n c)) as [md|e] eqn:Hl; [eauto|].
    apply load_raise_cases in Hl. destruct (Hnone n c e Hin Hsel Hl).
  - intros log e H. apply scan_loop_raise in H as (n & c & Hin & Hsel & Hl).
    exists n, c. split; [|split; [exact Hsel|split; [exact Hl|]]].
    + apply (Permutation_in _ (sorted_desc_perm base)). exact Hin.
    + apply (load_raise_cases n). exact Hl.
Qed.

(** The sample directory is scanned to its end; with a sidecar that is a
    list in one run the scan raises, and so it does with a sidecar that is
    not UTF-8. *)
Lemma scan_completes_iff_witness :
  (exists log ws, @scan_workflow_directories ascii_lib sample_base
                  = (log, Ok ws))
  /\ (exists n children,
       In (n, Dir children)
          [(sample_run, Dir (with_sidecar (JList []))); (lit "notes", Dir [])]
       /\ sidecar_raises children AttributeError)
  /\ (exists n children,
       In (n, Dir children)
          [(sample_run, Dir [(metadata_file_name, File (LoadFails NotUtf8))])]
       /\ sidecar_raises children UnicodeDecodeError).
Proof.
  split; [|split].
  - exact (proj2 (proj1 (@scan_completes_iff ascii_lib sample_base))
             sample_base_loads).
  - destruct (proj2 (proj2 (@scan_completes_iff ascii_lib
               [(sample_run, Dir (with_sidecar (JList [])));
                (lit "notes", Dir [])])) [] AttributeError eq_refl)
      as (n & c & Hin & _ & _ & Hl).
    exists n, c. auto.
  - destruct (proj2 (proj2 (@scan_completes_iff ascii_lib
               [(sample_run,
                 Dir [(metadata_file_name, File (LoadFails NotUtf8))])]))
               [] UnicodeDecodeError eq_refl)
      as (n & c & Hin & _ & _ & Hl).
    exists n, c. auto.
Defined.

(** ** The groups of a name *)

Section Groups.

Context {L : PyLib}.

Lemma span_decimals_rest s : no_digit_ahead (snd (span_decimals s)).
Proof.
  induction s as [|c s IH]; simpl; [exact I|].
  destruct (is_decimal c) eqn:Hc; [|exact Hc].
  destruct (span_decimals s). exact IH.
Qed.

Lemma span_decimals_exact r rest :
  forallb is_decimal r = true -> no_digit_ahead rest ->
  span_decimals (r ++ rest) = (r, rest).
Proof.
  intros Hr Hrest. induction r as [|c r IH].
  - destruct rest as [|x rest]; [reflexivity|].
    cbn [app span_decimals]. cbn in Hrest. rewrite Hrest. reflexivity.
  - cbn [forallb] in Hr. apply andb_true_iff in Hr as [Hc Hr].
    cbn [app span_decimals]. rewrite Hc, (IH Hr). reflexivity.
Qed.

(** X4. The pattern gives the groups [y], [m], [d] and [r] for a name
    exactly when the name is these four runs of digits, of 4, 2, 2 and at
    least one digit, joined by dashes, and does not go on with a digit:
    the run id is the whole run of digits after the third dash. *)
Theorem match_name_groups (n y m d r : pystr) :
  match_name n = Some (y, m, d, r)
  <-> exists rest,
        n = y ++ lit "-" ++ m ++ lit "-" ++ d ++ lit "-" ++ r ++ rest
        /\ length y = 4 /\ length m = 2 /\ length d = 2 /\ r <> []
        /\ forallb is_decimal (y ++ m ++ d ++ r) = true
        /\ no_digit_ahead rest.
Proof.
  split.
  - unfold match_name.
    destruct (take_decimals 4 n) as [[y' r1]|] eqn:H1; [|discriminate].
    destruct (expect dash r1) as [r1'|] eqn:E1; [|discriminate].
    destruct (take_decimals 2 r1') as [[m' r2]|] eqn:H2; [|discriminate].
    destruct (expect dash r2) as [r2'|] eqn:E2; [|discriminate].
    destruct (take_decimals 2 r2') as [[d' r3]|] eqn:H3; [|discriminate].
    destruct (expect dash r3) as [r3'|] eqn:E3; [|discriminate].
    pose proof (span_decimals_spec r3') as [Hs Hd].
    pose proof (span_decimals_rest r3') as Hrest.
    destruct (span_decimals r3') as [[|c run] rest] eqn:Hspan; [discriminate|].
    intros H; inversion H; subst; clear H.
    apply take_decimals_some in H1 as (-> & ? & Dy).
    apply take_decimals_some in H2 as (-> & ? & Dm).
    apply take_decimals_some in H3 as (-> & ? & Dd).
    apply expect_some in E1, E2, E3. subst.
    cbn [fst snd] in *. exists rest.
    rewrite !forallb_app, Dy, Dm, Dd, Hd.
    repeat split; auto. discriminate.
  - intros (rest & -> & Hy & Hm & Hd & Hr & Hall & Hrest).
    rewrite !forallb_app, !andb_true_iff in Hall.
    destruct Hall as (Dy & Dm & Dd & Dr).
    unfold match_name.
    rewrite (proj2 (take_decimals_some 4 _ y _) (conj eq_refl (conj Hy Dy))).
    change (lit "-" ++ m ++ ?t) with (dash :: m ++ t).
    rewrite (proj2 (expect_some _ _ _) eq_refl).
    rewrite (proj2 (take_decimals_some 2 _ m _) (conj eq_refl (conj Hm Dm))).
    change (lit "-" ++ d ++ ?t) with (dash :: d ++ t).
    rewrite (proj2 (expect_some _ _ _) eq_refl).
    rewrite (proj2 (take_decimals_some 2 _ d _) (conj eq_refl (conj Hd Dd))).
    change (lit "-" ++ r ++ ?t) with (dash :: r ++ t).
    rewrite (proj2 (expect_some _ _ _) eq_refl).
    rewrite (span_decimals_exact r rest Dr Hrest).
    destruct r; [congruence | reflexivity].
Qed.

End Groups.

(** The name of a rerun: the run id stops before the dash. *)
Lemma match_name_groups_witness :
  @match_name ascii_lib (lit "2024-01-02-5-rerun")
  = Some (lit "2024", lit "01", lit "02", lit "5").
Proof.
  apply (proj2 (@match_name_groups ascii_lib (lit "2024-01-02-5-rerun")
                  (lit "2024") (lit "01") (lit "02") (lit "5"))).
  exists (lit "-rerun"). repeat split; discriminate.
Defined.

(** ** The summary flag and the warnings *)

Lemma exists_in_iff name es :
  exists_in name es = true <-> exists x, In (name, x) es.
Proof.
  unfold exists_in. induction es as [|[n x] es IH]; cbn [child].
  - split; [discriminate | intros [x []]].
  - destruct (eqb n name) eqn:E.
    + apply eqb_eq in E. subst. split; [|reflexivity].
      intros _. exists x. left. reflexivity.
    + rewrite IH. apply eqb_neq in E. split.
      * intros [y Hy]. exists y. right. exact Hy.
      * intros [y [Hy|Hy]]; [inversion Hy; congruence | eauto].
Qed.

(** X5. For a run directory, every record of its name has the summary
    flag set exactly when the directory holds an entry [index.html],
    whether a file or a directory, and carries the four groups of the
    name. *)
Theorem summary_flag {L : PyLib} (base : entries) (log : list pystr)
    (ws : list workflow) (n : pystr) (children : entries)
    (Hscan : scan_workflow_directories base = (log, Ok ws))
    (Hnames : NoDup (List.map fst base))
    (Hin : In (n, Dir children) base) :
  forall w, In w ws -> name w = n ->
    (has_index w = true <-> exists x, In (lit "index.html", x) children)
    /\ match_name n = Some (year w, month w, day w, run_id w).
Proof.
  intros w Hw Hn. pose proof Hscan as Hrec. apply scan_records in Hrec.
  destruct (Forall2_in_r _ Hrec Hw)
    as ([n' x] & He & Hn' & Hm & c & Hx & Hi & _).
  cbn [fst snd] in *. subst x. rewrite Hn in Hn'. subst n'.
  apply filter_In in He as [He _].
  apply (Permutation_in _ (sorted_desc_perm base)) in He.
  pose proof (NoDup_fst_inj _ _ _ _ Hnames Hin He) as E.
  inversion E; subst c. split; [|exact Hm].
  rewrite Hi. apply exists_in_iff.
Qed.

(** The rerun of the sample directory has a summary. *)
Lemma summary_flag_witness :
  Forall (fun w => name w = lit "2024-01-02-5-rerun" -> has_index w = true)
    (match snd (@scan_workflow_directories ascii_lib sample_base)
     with Ok ws => ws | Raise _ => [] end).
Proof.
  apply Forall_forall. intros w Hw Hn.
  refine (proj2 (proj1 (@summary_flag ascii_lib sample_base [] _
            (lit "2024-01-02-5-rerun") _ eq_refl _ _ w Hw Hn)) _).
  - repeat constructor; simpl; intuition discriminate.
  - right; right; left. reflexivity.
  - eexists. right; left. reflexivity.
Defined.

Section Warnings.

Context {L : PyLib}.

Lemma scan_loop_log : forall es log ws,
  scan_loop es = (log, Ok ws) ->
  log = flat_map warnings_of (filter selected es).
Proof.
  induction es as [|[n x] es IH]; intros log ws H.
  - inversion H. reflexivity.
  - cbn [scan_loop] in H. cbn [filter]. unfold selected at 1. cbn [fst snd].
    destruct x as [c|children]; cbn [is_dir andb]; [eauto|].
    destruct (reserved n); cbn [negb andb] in *; [eauto|].
    destruct (match_name n) as [[[[y m] d] r]|] eqn:Hm; [|eauto].
    destruct (load_workflow_metadata n children) as [l [md|e]] eqn:Hl;
      [|discriminate].
    destruct (scan_loop es) as [log' [ws'|e]] eqn:Hs; [|discriminate].
    inversion H; subst. cbn [flat_map]. unfold warnings_of at 1.
    cbn [fst snd]. rewrite Hl. cbn [fst]. f_equal. eauto.
Qed.

Lemma loader_log dir_name dir line :
  In line (fst (load_workflow_metadata dir_name dir))
  <-> exists msg,
        child metadata_file_name dir = Some (File (DecodeError msg))
        /\ line = parse_warning dir_name msg.
Proof.
  unfold load_workflow_metadata.
  destruct (child metadata_file_name dir) as [[[data|msg|f]|c]|];
    cbn [fst In].
  - split; [tauto | intros (m & H & _); discriminate].
  - split.
    + intros [<-|[]]. eauto.
    + intros (m & H & ->). inversion H. auto.
  - split; [tauto | intros (m & H & _); discriminate].
  - split; [tauto | intros (m & H & _); discriminate].
  - split; [tauto | intros (m & H & _); discriminate].
Qed.

End Warnings.

(** X6. The lines a completed scan prints are the warnings of the run
    directories whose sidecar is not valid JSON, each naming its directory
    and the parse error; nothing else is printed. *)
Theorem scan_warnings {L : PyLib} (base : entries) (log : list pystr)
    (ws : list workflow)
    (Hscan : scan_workflow_directories base = (log, Ok ws)) :
  forall line,
    In line log
    <-> exists n children msg,
          In (n, Dir children) base
          /\ selected (n, Dir children) = true
          /\ child metadata_file_name children = Some (File (DecodeError msg))
          /\ line = parse_warning n msg.
Proof.
  intros line. rewrite (scan_loop_log _ Hscan), in_flat_map. split.
  - intros ([n x] & He & Hline).
    apply filter_In in He as [He Hsel].
    apply (Permutation_in _ (sorted_desc_perm base)) in He.
    unfold warnings_of in Hline. cbn [fst snd] in Hline.
    destruct x as [c|children]; [destruct Hline|].
    apply loader_log in Hline as (msg & Hc & ->).
    exists n, children, msg. auto.
  - intros (n & children & msg & Hin & Hsel & Hc & ->).
    exists (n, Dir children). split.
    + apply filter_In. split; [|exact Hsel].
      apply (Permutation_in _ (Permutation_sym (sorted_desc_perm base))).
      exact Hin.
    + unfold warnings_of. cbn [fst snd]. apply loader_log. eauto.
Qed.

(** A run with a sidecar that is not JSON, before another run. *)
Lemma scan_warnings_witness :
  In (parse_warning sample_run decode_msg)
     (fst (@scan_workflow_directories ascii_lib
             ((sample_run, Dir broken_sidecar) :: later_runs))).
Proof.
  apply (proj2 (@scan_warnings ascii_lib
                  ((sample_run, Dir broken_sidecar) :: later_runs)
                  _ _ eq_refl (parse_warning sample_run decode_msg))).
  exists sample_run, broken_sidecar, decode_msg.
  repeat split. left. reflexivity.
Defined.

(** ** What the loader returns *)

Lemma lstrip_suffix s : exists a, s = a ++ lstrip s.
Proof.
  induction s as [|c s [a IH]]; [exists []; reflexivity|].
  cbn [lstrip]. destruct (is_space c).
  - exists (c :: a). cbn [app]. f_equal. exact IH.
  - exists []. reflexivity.
Qed.

Lemma lstrip_head s :
  match lstrip s with c :: _ => is_space c = false | [] => True end.
Proof.
  induction s as [|c s IH]; [exact I|].
  cbn [lstrip]. destruct (is_space c) eqn:E; [exact IH | exact E].
Qed.

Lemma strip_trimmed s : trimmed (strip s).
Proof.
  unfold trimmed, strip. rewrite rev_involutive. split; [|apply lstrip_head].
  destruct (lstrip_suffix (rev (lstrip s))) as [a Ha].
  pose proof (lstrip_head s) as Hh.
  apply (f_equal (@rev _)) in Ha.
  rewrite rev_involutive, rev_app_distr in Ha.
  destruct (rev (lstrip (rev (lstrip s)))) as [|c r]; [exact I|].
  rewrite Ha in Hh. exact Hh.
Qed.

(** X7. In every record the loader returns, the start is absent or a text
    that is not empty and has no white space at either end, the duration
    is absent or a value that counts as true, and neither the actor nor
    the release version is the text "Unknown". *)
Theorem loader_normalizes (dir_name : pystr) (dir : entries) (md : metadata)
    (Hload : snd (load_workflow_metadata dir_name dir) = Ok md) :
  normalized md.
Proof.
  unfold load_workflow_metadata in Hload. unfold normalized.
  assert (Hdefault : normalized no_metadata).
  { cbv [normalized no_metadata m_started_at m_duration_formatted m_actor
           m_release_version].
    repeat split; auto; discriminate. }
  destruct (child metadata_file_name dir) as [[[data|msg|f]|c]|];
    cbn [snd] in Hload;
    try (inversion Hload; subst; exact Hdefault); try discriminate Hload.
  clear Hdefault. unfold extract_metadata in Hload.
  apply bind_ok in Hload as (wf & _ & H).
  apply bind_ok in H as (actor & _ & H).
  apply bind_ok in H as (inp & _ & H).
  apply bind_ok in H as (rel & _ & H).
  apply bind_ok in H as (ex & _ & H).
  apply bind_ok in H as (sa & _ & H).
  apply bind_ok in H as (started & Hst & H).
  apply bind_ok in H as (d0 & _ & H).
  apply bind_ok in H as (d1 & _ & H).
  inversion H; subst; clear H. cbn.
  split; [|split; [|split]].
  - destruct (eqb started []) eqn:E; [left; reflexivity|].
    right. exists started. split; [reflexivity|].
    split; [apply eqb_neq; exact E|].
    destruct sa; try discriminate Hst. inversion Hst; subst.
    apply strip_trimmed.
  - destruct (truthy d1) eqn:E; cbn; auto.
  - destruct (is_unknown actor) eqn:E; cbn; [discriminate|].
    intros ->. discriminate E.
  - destruct (is_unknown rel) eqn:E; cbn; [discriminate|].
    intros ->. discriminate E.
Qed.

(** The padded sidecar: the start is returned without its blanks, and the
    duration is computed. *)
Lemma loader_normalizes_witness :
  normalized (mk_metadata JNull JNull (JStr (lit "2024-01-01T10:00:00Z"))
                (JStr (lit "01:30:15"))).
Proof.
  apply (@loader_normalizes sample_run (with_sidecar sidecar_padded)).
  vm_compute. reflexivity.
Defined.

(** ** Where the duration comes from *)

Lemma calculate_duration_nonempty s c t :
  calculate_duration s c = Some t -> t <> [].
Proof.
  unfold calculate_duration, calculate_duration_with.
  destruct (eqb s [] || eqb c []); [discriminate|].
  destruct (Datetime.fromisoformat _); [|discriminate].
  destruct (Datetime.fromisoformat _); [|discriminate].
  destruct (Datetime.sub _ _); [|discriminate].
  intros H; inversion H. unfold format_hms.
  destruct (fmt_02d _); discriminate.
Qed.

(** X8. A duration given by the sidecar, when it counts as true, is
    returned as it is, and [completed_at] is then not looked at.
    Otherwise the duration is computed from the start and the completion,
    white space at their ends left out, and it is absent when one of them
    is empty or when the computation gives nothing. *)
Theorem duration_source (dir_name : pystr) (dir : entries)
    (d ex : list (pystr * json)) (s : pystr)
    (Hfile : child metadata_file_name dir = Some (File (Loads (JDict d))))
    (Hw : is_object (field (lit "workflow") d (JDict [])) = true)
    (Hi : is_object (field (lit "inputs") d (JDict [])) = true)
    (Hex : field (lit "execution") d (JDict []) = JDict ex)
    (Hs : field (lit "started_at") ex (JStr []) = JStr s) :
  (truthy (field (lit "duration_formatted") ex JNull) = true ->
   exists md,
     load_workflow_metadata dir_name dir = ([], Ok md)
     /\ m_duration_formatted md = field (lit "duration_formatted") ex JNull)
  /\ (truthy (field (lit "duration_formatted") ex JNull) = false ->
      forall c, field (lit "completed_at") ex (JStr []) = JStr c ->
      exists md,
        load_workflow_metadata dir_name dir = ([], Ok md)
        /\ m_duration_formatted md
           = if negb (eqb (strip s) []) && negb (eqb (strip c) [])
             then of_option (calculate_duration (strip s) (strip c))
             else JNull).
Proof.
  unfold load_workflow_metadata. rewrite Hfile.
  unfold extract_metadata. rewrite !get_dict. cbn [bind].
  rewrite (is_object_items _ Hw), (is_object_items _ Hi), Hex, !get_dict.
  cbn [bind]. rewrite Hs. cbn [strip_value bind].
  split.
  - intros Ht. rewrite Ht. cbn [negb bind]. rewrite Ht. cbn [negb].
    eexists. split; reflexivity.
  - intros Ht c Hc. rewrite Ht, Hc. cbn [negb strip_value bind].
    destruct (negb (eqb (strip s) []) && negb (eqb (strip c) [])).
    + cbn [bind].
      destruct (calculate_duration (strip s) (strip c)) as [t|] eqn:Hd.
      * pose proof (calculate_duration_nonempty _ _ Hd) as Hne.
        apply eqb_neq in Hne. cbn [of_option truthy]. rewrite Hne.
        cbn [negb]. eexists. split; reflexivity.
      * cbn. eexists. split; reflexivity.
    + cbn [bind]. rewrite Ht. cbn [negb]. eexists. split; reflexivity.
Qed.

(** A sidecar with a duration and a completion that is a number, and the
    padded sidecar, whose empty duration is computed afresh. *)
Lemma duration_source_witness :
  (exists md,
      load_workflow_metadata sample_run (with_sidecar sidecar_preformatted)
      = ([], Ok md)
      /\ m_duration_formatted md = JStr (lit "2h"))
  /\ exists md,
      load_workflow_metadata sample_run (with_sidecar sidecar_padded)
      = ([], Ok md)
      /\ m_duration_formatted md = JStr (lit "01:30:15").
Proof.
  split.
  - exact (proj1 (@duration_source sample_run
                    (with_sidecar sidecar_preformatted) _ _ _
                    eq_refl eq_refl eq_refl eq_refl eq_refl) eq_refl).
  - exact (proj2 (@duration_source sample_run (with_sidecar sidecar_padded)
                    _ _ _ eq_refl eq_refl eq_refl eq_refl eq_refl)
             eq_refl _ eq_refl).
Defined.

(** ** When no duration is computed *)

Lemma sub_none e s :
  Datetime.sub e s = None <-> aware s <> aware e.
Proof.
  unfold Datetime.sub, aware.
  destruct (Datetime.utcoffset e), (Datetime.utcoffset s);
    split; intros H; try discriminate; try reflexivity;
    exfalso; apply H; reflexivity.
Qed.

(** X9. [calculate_duration] gives nothing exactly when a timestamp is
    empty, when one of them does not parse, or when one carries a UTC
    offset and the other does not. *)
Theorem calculate_duration_none (started completed : pystr) :
  calculate_duration started completed = None
  <-> started = [] \/ completed = []
      \/ Datetime.fromisoformat (utc_z started) = None
      \/ Datetime.fromisoformat (utc_z completed) = None
      \/ exists ds de,
           Datetime.fromisoformat (utc_z started) = Some ds
           /\ Datetime.fromisoformat (utc_z completed) = Some de
           /\ aware ds <> aware de.
Proof.
  unfold calculate_duration, calculate_duration_with. fold (utc_z started). fold (utc_z completed).
  destruct (eqb started []) eqn:Es.
  { apply eqb_eq in Es. cbn. tauto. }
  destruct (eqb completed []) eqn:Ec.
  { apply eqb_eq in Ec. cbn. tauto. }
  apply eqb_neq in Es, Ec. cbn [orb].
  destruct (Datetime.fromisoformat (utc_z started)) as [ds|] eqn:Hs;
    [|tauto].
  destruct (Datetime.fromisoformat (utc_z completed)) as [de|] eqn:He;
    [|tauto].
  destruct (Datetime.sub de ds) as [us|] eqn:Hsub.
  - split; [discriminate|].
    intros [H|[H|[H|[H|(ds' & de' & H1 & H2 & H3)]]]]; try congruence.
    inversion H1; inversion H2; subst.
    apply sub_none in H3. congruence.
  - split; [|reflexivity]. intros _. do 4 right.
    exists ds, de. repeat split. apply sub_none. exact Hsub.
Qed.

(** A start without an offset and a completion with one. *)
Lemma calculate_duration_none_witness :
  calculate_duration (lit "2024-01-01T10:00:00") (lit "2024-01-01T11:30:15Z")
  = None.
Proof.
  apply (proj2 (calculate_duration_none (lit "2024-01-01T10:00:00")
                  (lit "2024-01-01T11:30:15Z"))).
  do 4 right. do 2 eexists.
  split; [vm_compute; reflexivity|]. split; [vm_compute; reflexivity|].
  discriminate.
Defined.

(** ** The designator Z *)

Lemma replace_unfold old new s :
  old <> [] ->
  replace old new s
  = match split_on old s with
    | None => s
    | Some (a, b) => a ++ new ++ replace old new b
    end.
Proof.
  intros Hold. destruct old as [|c old]; [congruence|].
  unfold replace. cbn [replace_fuel].
  destruct (split_on (c :: old) s) as [[a b]|] eqn:Hs; [|reflexivity].
  pose proof (split_on_shorter _ Hold Hs).
  rewrite (@replace_fuel_enough (c :: old) new Hold (length s)
             (S (length b)) b) by lia.
  reflexivity.
Qed.

Lemma split_on_char c x s :
  split_on [c] (x :: s)
  = if N.eqb c x then Some ([], s)
    else match split_on [c] s with
         | Some (a, b) => Some (x :: a, b)
         | None => None
         end.
Proof.
  cbn [split_on starts_with]. rewrite andb_true_r.
  destruct (N.eqb c x); reflexivity.
Qed.

(** Replacing one character is done character by character. *)
Lemma replace_char c new : forall n s, length s <= n ->
  replace [c] new s = flat_map (replace_one c new) s.
Proof.
  induction n as [|n IH]; intros s Hn.
  - destruct s; [reflexivity | simpl in Hn; lia].
  - destruct s as [|x s]; [reflexivity|].
    cbn [length] in Hn.
    rewrite replace_unfold by discriminate. rewrite split_on_char.
    cbn [flat_map]. unfold replace_one at 1.
    destruct (N.eqb_spec c x) as [->|Hne].
    + rewrite N.eqb_refl. cbn [app]. rewrite (IH s) by lia. reflexivity.
    + assert (E : N.eqb x c = false) by (apply N.eqb_neq; congruence).
      rewrite E. rewrite <- (IH s) by lia.
      rewrite (@replace_unfold [c] new s) by discriminate.
      destruct (split_on [c] s) as [[a b]|]; reflexivity.
Qed.

Lemma utc_z_chars s :
  utc_z s = flat_map (replace_one 90%N (lit "+00:00")) s.
Proof. apply (@replace_char 90%N (lit "+00:00") (length s)). lia. Qed.

Lemma utc_z_idempotent s : utc_z (utc_z s) = utc_z s.
Proof.
  rewrite !utc_z_chars. induction s as [|x s IH]; [reflexivity|].
  cbn [flat_map]. rewrite flat_map_app, IH. f_equal.
  destruct (N.eqb x 90) eqn:E.
  - assert (G : replace_one 90%N (lit "+00:00") x = lit "+00:00")
      by (unfold replace_one; rewrite E; reflexivity).
    rewrite G. reflexivity.
  - assert (G : replace_one 90%N (lit "+00:00") x = [x])
      by (unfold replace_one; rewrite E; reflexivity).
    rewrite G. cbn [flat_map]. rewrite G. reflexivity.
Qed.

Lemma utc_z_empty s : eqb (utc_z s) [] = eqb s [].
Proof.
  rewrite utc_z_chars. destruct s as [|x s]; [reflexivity|].
  cbn [flat_map eqb]. unfold replace_one. destruct (N.eqb x 90); reflexivity.
Qed.

(** X10. Every letter Z of a timestamp is read as the offset [+00:00]:
    writing the offset out in either timestamp gives the same duration. *)
Theorem z_reads_as_utc (started completed : pystr) :
  calculate_duration (utc_z started) (utc_z completed)
  = calculate_duration started completed.
Proof.
  unfold calculate_duration, calculate_duration_with.
  fold (utc_z started). fold (utc_z completed).
  fold (utc_z (utc_z started)). fold (utc_z (utc_z completed)).
  rewrite !utc_z_idempotent, !utc_z_empty. reflexivity.
Qed.

(** ** What the renderer returns and writes *)

Section WriteFacts.

Context {L : PyLib}.



















End WriteFacts.

(** A surrogate in a directory name reaches the page, and the write
    raises on it, the file having been emptied by [open]. *)
Example surrogate_in_name_fails_write :
  @update_index_html ascii_lib [run_with_surrogate] clock1 (Some fresh_page)
  = ([], Raise UnicodeEncodeError).
Proof. vm_compute. reflexivity. Qed.




Lemma sub4_none A B C D tmpl r0 s :
  Re.expand Re.no_groups tmpl = Ok r0 ->
  Re.find4 A B C D s = None -> Re.sub4 A B C D tmpl s = Ok s.
Proof.
  intros H0 Hf. unfold Re.sub4. rewrite H0. cbn [bind Re.sub4_fuel].
  rewrite Hf. reflexivity.
Qed.

Lemma placeholder_nonempty : placeholder <> [].
Proof. discriminate. Qed.

(** X12. A page with neither data array, nor helper, nor timestamp line,
    nor footer marker is written back as it is: the renderer prints the
    one warning of the missing array and returns [True]. *)
Theorem page_without_markers {L : PyLib} (ws : list workflow)
    (now content : pystr)
    (Hplain : plain_records ws)
    (Hold : Re.search_lazy old_decl array_end content = false)
    (Hnew : Re.search_lazy new_decl array_end content = false)
    (Hcheck : Re.find4 check_open check_return semicolon brace content = None)
    (Hstamp : stamp_search content = false)
    (Hmarker : contains placeholder content = false) :
  update_index_html ws now (Some content)
  = ([array_warning], Ok (true, Some content)).
Proof.
  unfold update_index_html, render, splice_array. rewrite Hold, Hnew.
  cbn [bind]. unfold splice_check.
  fold check_return. fold semicolon. fold brace.
  erewrite sub4_none; [|apply (expand_check [] [] [] [] Hplain)|exact Hcheck].
  cbn [bind]. unfold update_stamp. rewrite Hstamp.
  rewrite replace_none by (exact placeholder_nonempty || exact Hmarker).
  cbn [bind]. unfold write_text. rewrite andb_negb_r. reflexivity.
Qed.

Lemma page_without_markers_witness :
  @update_index_html ascii_lib sample_records clock1 (Some plain_page)
  = ([array_warning], Ok (true, Some plain_page)).
Proof.
  apply (@page_without_markers ascii_lib sample_records clock1 plain_page
           sample_records_plain); vm_compute; reflexivity.
Defined.

(** X13. On a page with one helper, the renderer puts the list of the
    names that have a summary, quoted and in the order of the records, in
    place of the returned expression, and keeps the rest of the helper and
    of the page. *)
Theorem helper_list_rewritten {L : PyLib} (ws : list workflow)
    (page a x y z b : pystr)
    (Hplain : plain_records ws)
    (Hfind : Re.find4 check_open check_return semicolon brace page
             = Some (a, check_open ++ x ++ check_return, y,
                     semicolon ++ z ++ brace, b))
    (Hrest : Re.find4 check_open check_return semicolon brace b = None) :
  page = a ++ check_open ++ x ++ check_return ++ y ++ semicolon ++ z
         ++ brace ++ b
  /\ splice_check ws page
     = Ok (a ++ check_open ++ x ++ check_return
           ++ lit "[" ++ index_list_js ws ++ lit "].includes(workflowName)"
           ++ semicolon ++ z ++ brace ++ b)
  /\ index_list_js ws
     = join (lit ", ")
         (List.map (fun n => lit "'" ++ n ++ lit "'")
            (List.map name (filter has_index ws))).
Proof.
  split; [|split].
  - rewrite (find4_sound _ _ _ _ _ Hfind) at 1.
    unfold pystr, pychar in *. rewrite <- !app_assoc. reflexivity.
  - unfold splice_check. fold check_return. fold semicolon. fold brace.
    rewrite (@sub4_once check_open check_return semicolon brace
               (check_for_index_replacement ws) page a
               (check_open ++ x ++ check_return) y (semicolon ++ z ++ brace)
               b _ _ (expand_check [] [] [] [] Hplain) Hfind
               (expand_check _ _ _ _ Hplain) Hrest).
    unfold check_body. unfold pystr, pychar in *.
    rewrite <- !app_assoc. reflexivity.
  - unfold index_list_js. rewrite map_map. reflexivity.
Qed.

Lemma helper_list_rewritten_witness :
  splice_check sample_records
    (lit "function checkForIndex(workflowName) { return false; }")
  = Ok (lit "function checkForIndex(workflowName) { return ['2024-01-02-5'].includes(workflowName); }").
Proof.
  refine (proj1 (proj2 (@helper_list_rewritten ascii_lib sample_records
            (lit "function checkForIndex(workflowName) { return false; }")
            [] (lit " ") (lit "false") (lit " ") []
            sample_records_plain _ _))).
  - vm_compute. reflexivity.
  - vm_compute. reflexivity.
Defined.

(** ** The timestamp line *)

Section Stamp.

Context {L : PyLib}.

Lemma ascii_digits_decimal d :
  forallb is_ascii_digit d = true -> forallb is_decimal d = true.
Proof.
  induction d as [|c d IH]; [reflexivity|].
  cbn [forallb]. rewrite !andb_true_iff. intros [Hc Hd].
  split; [|auto]. unfold is_decimal.
  assert (Hlt : (c <? 128)%N = true).
  { unfold is_ascii_digit in Hc. apply andb_true_iff in Hc as [_ Hc].
    apply N.leb_le in Hc. apply N.ltb_lt. lia. }
  rewrite Hlt. exact Hc.
Qed.

Lemma strip_prefix_app p r : strip_prefix p (p ++ r) = Some r.
Proof.
  induction p as [|c p IH]; [reflexivity|].
  cbn [app strip_prefix]. rewrite N.eqb_refl. exact IH.
Qed.

Lemma decimals_then_app n d sep r :
  length d = n -> forallb is_ascii_digit d = true ->
  decimals_then n sep (d ++ sep ++ r) = Some r.
Proof.
  intros Hn Hd. unfold decimals_then.
  rewrite (proj2 (take_decimals_some n (d ++ sep ++ r) d (sep ++ r))
             (conj eq_refl (conj Hn (ascii_digits_decimal _ Hd)))).
  apply strip_prefix_app.
Qed.

(** The line the renderer writes is a match of the pattern it looks for. *)
Lemma stamp_line_matches now rest :
  clock_form now -> stamp_match (stamp_line now ++ rest) = Some rest.
Proof.
  intros (y & mo & d & h & mi & s & -> & Hy & Hmo & Hd & Hh & Hmi & Hs & Hall).
  rewrite !forallb_app, !andb_true_iff in Hall.
  destruct Hall as (Dy & Dmo & Dd & Dh & Dmi & Ds).
  unfold stamp_match, stamp_line. rewrite <- !app_assoc.
  rewrite strip_prefix_app.
  rewrite (@decimals_then_app 4 y (lit "-") _ Hy Dy).
  rewrite (@decimals_then_app 2 mo (lit "-") _ Hmo Dmo).
  rewrite (@decimals_then_app 2 d (lit " ") _ Hd Dd).
  rewrite (@decimals_then_app 2 h (lit ":") _ Hh Dh).
  rewrite (@decimals_then_app 2 mi (lit ":") _ Hmi Dmi).
  apply (@decimals_then_app 2 s stamp_tail rest Hs Ds).
Qed.

Lemma stamp_sub_skip tmpl tail : forall pre f,
  stamp_free_before pre tail = true ->
  stamp_sub_fuel (length pre + f) tmpl (pre ++ tail)
  = (tl <- stamp_sub_fuel f tmpl tail ;; Ok (pre ++ tl)).
Proof.
  induction pre as [|c pre IH]; intros f H.
  - cbn. destruct (stamp_sub_fuel f tmpl tail); reflexivity.
  - cbn [stamp_free_before] in H.
    cbn [length Nat.add stamp_sub_fuel].
    destruct (stamp_match ((c :: pre) ++ tail)); [discriminate|].
    cbn [app]. rewrite (IH f H).
    destruct (stamp_sub_fuel f tmpl tail); reflexivity.
Qed.

Lemma stamp_search_false s :
  stamp_search s = false ->
  stamp_match s = None
  /\ match s with _ :: s' => stamp_search s' = false | [] => True end.
Proof.
  destruct s as [|c s]; cbn [stamp_search];
    destruct (stamp_match _); try discriminate; auto.
Qed.

Lemma stamp_sub_none tmpl : forall s f,
  stamp_search s = false -> stamp_sub_fuel f tmpl s = Ok s.
Proof.
  induction s as [|c s IH]; intros [|f] H; try reflexivity;
    apply stamp_search_false in H as [Hm Hs]; cbn [stamp_sub_fuel];
    rewrite Hm.
  rewrite (IH f Hs). reflexivity.
Qed.

Lemma stamp_search_suffix : forall a b,
  stamp_search (a ++ b) = false -> stamp_search b = false.
Proof.
  induction a as [|c a IH]; intros b H; [exact H|].
  apply stamp_search_false in H as [_ H]. cbn [app] in H. auto.
Qed.

Lemma stamp_search_later : forall a b,
  stamp_search b = true -> stamp_search (a ++ b) = true.
Proof.
  intros a b H. destruct (stamp_search (a ++ b)) eqn:E; [reflexivity|].
  rewrite (stamp_search_suffix _ _ E) in H. discriminate.
Qed.

End Stamp.

Lemma stamp_search_here {L : PyLib} s r :
  stamp_match s = Some r -> stamp_search s = true.
Proof. intros H. destruct s; cbn [stamp_search]; rewrite H; reflexivity. Qed.

(** X14. On a page that has the footer marker and no timestamp line, a
    run puts the timestamp line in place of the marker; the next run
    finds that line and puts its own time in it, the rest of the page
    being kept both times. *)
Theorem timestamp_cycle {L : PyLib} (t1 t2 page pre post : pystr)
    (Hform : clock_form t1)
    (Hplain : backslash_free t2 = true)
    (Hnone : stamp_search page = false)
    (Hmarker : split_on placeholder page = Some (pre, post))
    (Hsingle : contains placeholder post = false)
    (Hbefore : stamp_free_before pre (stamp_line t1 ++ post) = true) :
  update_stamp t1 page = Ok (pre ++ stamp_line t1 ++ post)
  /\ update_stamp t2 (pre ++ stamp_line t1 ++ post)
     = Ok (pre ++ stamp_line t2 ++ post).
Proof.
  split.
  - unfold update_stamp. rewrite Hnone. f_equal.
    apply replace_once; [exact placeholder_nonempty | exact Hmarker
                        | exact Hsingle].
  - assert (Hpost : stamp_search post = false).
    { rewrite (split_on_sound _ _ Hmarker) in Hnone.
      apply stamp_search_suffix in Hnone.
      apply stamp_search_suffix in Hnone. exact Hnone. }
    pose proof (stamp_line_matches post Hform) as Hmatch.
    assert (Ht2 : backslash_free (stamp_line t2) = true).
    { unfold stamp_line. rewrite !backslash_free_app, Hplain. reflexivity. }
    unfold update_stamp.
    rewrite (stamp_search_later pre _ (stamp_search_here _ Hmatch)).
    rewrite (expand_literal _ _ Ht2). cbn [bind].
    rewrite (@stamp_sub_fuel_enough L (stamp_line t2)
               (S (length (pre ++ stamp_line t1 ++ post)))
               (length pre + S (length (stamp_line t1 ++ post)))
               (pre ++ stamp_line t1 ++ post))
      by (rewrite !length_app; lia).
    rewrite (stamp_sub_skip _ _ _ _ Hbefore).
    cbn [stamp_sub_fuel]. rewrite Hmatch.
    rewrite (expand_literal _ _ Ht2). cbn [bind].
    rewrite (stamp_sub_none _ _ _ Hpost). reflexivity.
Qed.

(** The footer of the fresh page, updated at [clock1] and then at
    [clock2]. *)
Lemma timestamp_cycle_witness :
  @update_stamp ascii_lib clock2
    (lit "<footer>" ++ stamp_line clock1 ++ lit "</footer>")
  = Ok (lit "<footer>" ++ stamp_line clock2 ++ lit "</footer>").
Proof.
  refine (proj2 (@timestamp_cycle ascii_lib clock1 clock2
            (lit "<footer>" ++ placeholder ++ lit "</footer>")
            (lit "<footer>") (lit "</footer>") _ eq_refl _ _ _ _)).
  - exists (lit "2024"), (lit "05"), (lit "05"), (lit "01"), (lit "02"),
      (lit "03").
    repeat split.
  - vm_compute. reflexivity.
  - vm_compute. reflexivity.
  - vm_compute. reflexivity.
  - vm_compute. reflexivity.
Defined.

(** ** main *)

Section MainFacts.

Context {L : PyLib}.

Lemma scan_loop_none : forall es,
  (forall e, In e es -> selected e = false) -> scan_loop es = ([], Ok []).
Proof.
  induction es as [|[n x] es IH]; intros H; [reflexivity|].
  assert (Hes : scan_loop es = ([], Ok [])).
  { apply IH. intros e He. apply H. right. exact He. }
  pose proof (H (n, x) (or_introl eq_refl)) as Hsel.
  cbn [scan_loop]. destruct x as [c|children]; [exact Hes|].
  unfold selected in Hsel. cbn in Hsel.
  destruct (reserved n); cbn [negb] in *; [exact Hes|].
  destruct (match_name n); [discriminate | exact Hes].
Qed.

Lemma scan_none base :
  (forall e, In e base -> selected e = false) ->
  scan_workflow_directories base = ([], Ok []).
Proof.
  intros H. apply scan_loop_none. intros e He. apply H.
  apply (Permutation_in _ (sorted_desc_perm base)). exact He.
Qed.

End MainFacts.

(** X15. In a directory without run directories [main] reports that none
    was found and writes nothing, whether [index.html] is there or not. *)
Theorem main_without_runs {L : PyLib} (base : entries) (now : pystr)
    (template : option pystr)
    (Hnone : forall e, In e base -> selected e = false) :
  main base now template = ([scanning_msg; none_found_msg], Ok None).
Proof.
  unfold main. rewrite (scan_none _ Hnone). reflexivity.
Qed.

Lemma main_without_runs_witness :
  @main ascii_lib no_runs clock1 (Some fresh_page)
  = ([scanning_msg; none_found_msg], Ok None).
Proof.
  apply (@main_without_runs ascii_lib no_runs clock1 (Some fresh_page)).
  intros e He.
  repeat (destruct He as [He|He]; [subst e; reflexivity|]).
  destruct He.
Defined.

(** ** The entry block *)

(** X17. The script ends with [exit(1)], before any scan, exactly when
    the generator script is neither in the current directory nor in its
    directory [workflow-results]; it runs [main] in the current directory
    when the generator is there, and otherwise in [workflow-results]. *)
Theorem script_directory {L : PyLib} (cwd : entries) (now : pystr)
    (template_here template_results : option pystr) :
  (snd (script cwd now template_here template_results) = Exit1
   <-> exists_in generator_name cwd = false
       /\ forall sub, child results_name cwd = Some (Dir sub) ->
                      exists_in generator_name sub = false)
  /\ (exists_in generator_name cwd = true ->
      script cwd now template_here template_results
      = (fst (main cwd now template_here),
         Ran (snd (main cwd now template_here))))
  /\ (exists_in generator_name cwd = false ->
      forall sub, child results_name cwd = Some (Dir sub) ->
      exists_in generator_name sub = true ->
      script cwd now template_here template_results
      = (fst (main sub now template_results),
         Ran (snd (main sub now template_results)))).
Proof.
  unfold script, working_directory. split; [|split].
  - destruct (exists_in generator_name cwd).
    + destruct (main cwd now template_here). cbn [snd]. split; [discriminate|].
      intros [H _]. discriminate H.
    + destruct (child results_name cwd) as [[c|sub]|].
      * cbn [snd]. split; [|reflexivity]. intros _. split; [reflexivity|].
        intros sub H. discriminate H.
      * destruct (exists_in generator_name sub) eqn:E.
        -- destruct (main sub now template_results). cbn [snd].
           split; [discriminate|]. intros [_ H].
           specialize (H sub eq_refl). congruence.
        -- cbn [snd]. split; [|reflexivity]. intros _. split; [reflexivity|].
           intros sub' H. inversion H; subst. exact E.
      * cbn [snd]. split; [|reflexivity]. intros _. split; [reflexivity|].
        intros sub H. discriminate H.
  - intros ->. destruct (main cwd now template_here). reflexivity.
  - intros -> sub -> ->. destruct (main sub now template_results).
    reflexivity.
Qed.

(** Started in the project root, the script works in [workflow-results];
    started in a directory without the generator, it exits. *)
Lemma script_directory_witness :
  (exists log c,
      @script ascii_lib project_root clock1 None (Some fresh_page)
      = (log, Ran (Ok (Some c))))
  /\ snd (@script ascii_lib no_runs clock1 None None) = Exit1.
Proof.
  destruct (@script_directory ascii_lib project_root clock1 None
              (Some fresh_page)) as (_ & _ & Hsub).
  destruct (@script_directory ascii_lib no_runs clock1 None None)
    as (Hexit & _ & _).
  split.
  - do 2 eexists. rewrite (Hsub eq_refl _ eq_refl eq_refl).
    vm_compute. reflexivity.
  - apply (proj2 Hexit). split; [reflexivity|].
    intros sub H. discriminate H.
Defined.

(** ** One record for each run directory *)

Lemma Forall2_map_eq {A B C} (R : A -> B -> Prop) (f : A -> C) (g : B -> C)
    l l' :
  (forall a b, R a b -> g b = f a) ->
  Forall2 R l l' -> List.map g l' = List.map f l.
Proof.
  intros H. induction 1 as [|a b l l' Hab _ IH]; [reflexivity|].
  cbn [List.map]. rewrite (H _ _ Hab), IH. reflexivity.
Qed.

Lemma NoDup_map_filter {A B} (f : A -> B) (p : A -> bool) l :
  NoDup (List.map f l) -> NoDup (List.map f (filter p l)).
Proof.
  induction l as [|a l IH]; cbn [List.map filter]; [auto|].
  intros H. inversion H as [|? ? Hnot Hnd]; subst.
  destruct (p a); [|auto]. cbn [List.map]. constructor; [|auto].
  intros Hin. apply Hnot. apply in_map_iff in Hin as (x & Hx & Hi).
  apply filter_In in Hi as [Hi _]. apply in_map_iff. eauto.
Qed.

Lemma filter_length_perm {A} (p : A -> bool) l l' :
  Permutation l l' -> length (filter p l) = length (filter p l').
Proof.
  induction 1 as [|x l l' H IH|x y l|l l' l'' H1 IH1 H2 IH2]; cbn [filter].
  - reflexivity.
  - destruct (p x); cbn [length]; congruence.
  - destruct (p x), (p y); reflexivity.
  - congruence.
Qed.

(** X18. A completed scan holds one record for each run directory and no
    other: as many records as run directories, under names that are
    pairwise distinct as those of the directory are. *)
Theorem one_record_per_run {L : PyLib} (base : entries) (log : list pystr)
    (ws : list workflow)
    (Hscan : scan_workflow_directories base = (log, Ok ws))
    (Hnames : NoDup (List.map fst base)) :
  length ws = length (filter selected base)
  /\ NoDup (List.map name ws).
Proof.
  pose proof Hscan as Hrec. apply scan_records in Hrec.
  assert (E : List.map name ws
              = List.map fst (filter selected (sorted_desc base))).
  { apply (Forall2_map_eq (R := record_of)); [|exact Hrec].
    intros a b (Hn & _). exact Hn. }
  split.
  - rewrite <- (length_map name ws), E, length_map.
    apply filter_length_perm. apply sorted_desc_perm.
  - rewrite E. apply NoDup_map_filter.
    apply (Permutation_NoDup (l := List.map fst base)); [|exact Hnames].
    apply Permutation_map. apply Permutation_sym. apply sorted_desc_perm.
Qed.

(** The sample directory holds two run directories. *)
Lemma one_record_per_run_witness :
  length (match snd (@scan_workflow_directories ascii_lib sample_base)
          with Ok ws => ws | Raise _ => [] end) = 2.
Proof.
  refine (proj1 (@one_record_per_run ascii_lib sample_base [] _ eq_refl _)).
  repeat constructor; simpl; intuition discriminate.
Defined.

(** ** Pages laid out as the generated page *)

(** The three substitutions of a run are followed on a page that has its
    footer, then its data array, then its helper: each acts on its own
    part of the page and leaves the others as they are. *)






Section Layout.

Context {L : PyLib}.







End Layout.













(** A record that holds the text of a timestamp line: the timestamp step
    takes it for the footer.  The first run leaves the marker in the
    footer, and the second run writes its own time into the array, which
    then is no longer the text of the records. *)
Example timestamp_in_record_is_rewritten :
  exists page1 page2,
    @update_index_html ascii_lib [run_of_stamp_actor] clock1 (Some fresh_page)
    = ([], Ok (true, Some page1))
    /\ @update_index_html ascii_lib [run_of_stamp_actor] clock2 (Some page1)
       = ([], Ok (true, Some page2))
    /\ contains (@array_body ascii_lib [run_of_stamp_actor]) page1 = true
    /\ contains (@array_body ascii_lib [run_of_stamp_actor]) page2 = false
    /\ contains placeholder page2 = true.
Proof.
  do 2 eexists.
  split; [vm_compute; reflexivity|].
  split; [vm_compute; reflexivity|].
  repeat split; vm_compute; reflexivity.
Qed.
